(** * Sweet shop backend: the sweets inventory and its purchase operation

    A shallow embedding of [models/Sweet.js] (the Mongoose schema, its
    validators and its pre-save hook) and of [controllers/sweetController.js]
    (getSweetById, createSweet, updateSweet, purchaseSweet), followed by the
    properties of the inventory that the specification states.

    Modelling conventions.
    - The [sweets] collection is a finite map from [_id] to the stored paths
      of a document.  Every call of a Mongoose model method that reaches the
      database is one indivisible step on that map, as MongoDB guarantees for
      single-document operations.
    - The model methods behave as Mongoose 9 documents them: query
      middleware runs no [save] hook; keys whose value is [undefined] are
      stripped from an update; [timestamps] sets [updatedAt] on every
      write; [save] writes the modified paths only.
    - A JSON number is a rational ([Q]); the stored [quantity] is an integer
      ([Z]) because the schema rejects every other number.  Numbers are
      doubles: a subtraction yields the double nearest to the difference
      ([Number.sub] on integers, [Number.minus] in general), which is the
      difference itself for integers within [2^53].  Request bodies carry values of the schema's types; a
      path left out of the body is [None] (JavaScript's [undefined]).  The
      request of a purchase may also come without a body, which Express 5
      hands to the handler as [req.body === undefined].
    - The environment of a store call is the pair of an availability flag
      (is the database reachable for this call) and the clock value that the
      [timestamps] option writes.  A call made while the database is
      unreachable throws and changes nothing.
    - Every model method call is recorded in a log, the way a spy on the
      model would record it. *)

From Stdlib Require Import ZArith QArith String Ascii List Bool Lia DecimalString.
From stdpp Require Import base option list sorting gmap.

Close Scope Q_scope.
Open Scope string_scope.
Open Scope Z_scope.

(** ** JavaScript numbers *)

Module Number.

(** [Number.isInteger(x)] on a finite number. *)
Definition isInteger (x : Q) : bool :=
  (Qnum x mod Zpos (Qden x) =? 0)%Z.

(** The integer denoted by an integral number. *)
Definition toZ (x : Q) : Z := (Qnum x / Zpos (Qden x))%Z.

Definition ofZ (z : Z) : Q := inject_Z z.

(** [x < y], [x <= y] and [x > y] on numbers. *)
Definition lt (x y : Q) : bool := negb (Qle_bool y x).
Definition le (x y : Q) : bool := Qle_bool x y.
Definition gt (x y : Q) : bool := lt y x.

(** Every integer up to [2^53] in magnitude is a double; beyond it the
    doubles are [2^(e-52)] apart, where [2^e] is the power of two at or
    below the magnitude. *)
Definition exactLimit : Z := 2 ^ 53.

(** Rounding to the nearer of the neighbours [m] and [m + 1], given the
    remainder [r] out of [d]; a tie goes to the even one (the rounding of
    IEEE 754 arithmetic). *)
Definition halfEven (m r d : Z) : Z :=
  if 2 * r <? d then m
  else if d <? 2 * r then m + 1
  else if Z.even m then m else m + 1.

(** The double nearest to an integer, for integers in the range of the
    finite doubles. *)
Definition round (z : Z) : Z :=
  if Z.abs z <=? exactLimit then z
  else
    let ulp := 2 ^ (Z.log2 (Z.abs z) - 52) in
    Z.sgn z * (halfEven (Z.abs z / ulp) (Z.abs z mod ulp) ulp * ulp).

(** An integer that is a double. *)
Definition isDouble (z : Z) : Prop := round z = z.

(** [x - y] on numbers that hold integers: the double nearest to the
    difference.  MongoDB's [$inc] on a stored number does the same. *)
Definition sub (x y : Z) : Z := round (x - y).

(** The double nearest to a rational number, for numbers in the range of
    the normal doubles: [2^e] is the power of two at or below the
    magnitude, and the number is rounded to a multiple of [2^(e-52)]. *)
Definition nearest (x : Q) : Q :=
  if isInteger x then ofZ (round (toZ x))
  else
    let n := Z.abs (Qnum x) in
    let d := Zpos (Qden x) in
    let k := Z.log2 n - Z.log2 d in
    let below := if 0 <=? k then n <? d * 2 ^ k else n * 2 ^ (- k) <? d in
    let e := if below then k - 1 else k in
    let p := 52 - e in
    let num := if 0 <=? p then n * 2 ^ p else n in
    let den := if 0 <=? p then d else d * 2 ^ (- p) in
    let m := Z.sgn (Qnum x) * halfEven (num / den) (num mod den) den in
    if 0 <=? p then Qmake m (Z.to_pos (2 ^ p)) else ofZ (m * 2 ^ (- p)).

(** [x - y] on numbers. *)
Definition minus (x y : Q) : Q := nearest (Qminus x y).

End Number.

(** ** Object identifiers

    A route parameter is a string.  Mongoose casts it to an ObjectId when it
    is made of 24 hexadecimal digits and raises a CastError otherwise. *)

Definition ObjectId := N.

Definition hexDigit (c : ascii) : option N :=
  let n := N_of_ascii c in
  if ((48 <=? n) && (n <=? 57))%N then Some (n - 48)%N
  else if ((97 <=? n) && (n <=? 102))%N then Some (n - 87)%N
  else if ((65 <=? n) && (n <=? 70))%N then Some (n - 55)%N
  else None.

Fixpoint parseHex (s : string) (acc : N) : option N :=
  match s with
  | EmptyString => Some acc
  | String c s' =>
      match hexDigit c with
      | Some d => parseHex s' (16 * acc + d)%N
      | None => None
      end
  end.

Definition castObjectId (s : string) : option ObjectId :=
  if Nat.eqb (String.length s) 24 then parseHex s 0%N else None.

(** ** The Sweet schema *)

(** The paths of a stored document; [createdAt] and [updatedAt] come from the
    schema option [timestamps: true]. *)
Record Sweet := mkSweet {
  name : string;
  category : string;
  price : Q;
  quantity : Z;
  description : option string;
  inStock : bool;
  createdAt : Z;
  updatedAt : Z
}.

Definition set_name (v : string) (s : Sweet) : Sweet :=
  mkSweet v (category s) (price s) (quantity s) (description s) (inStock s)
          (createdAt s) (updatedAt s).
Definition set_category (v : string) (s : Sweet) : Sweet :=
  mkSweet (name s) v (price s) (quantity s) (description s) (inStock s)
          (createdAt s) (updatedAt s).
Definition set_price (v : Q) (s : Sweet) : Sweet :=
  mkSweet (name s) (category s) v (quantity s) (description s) (inStock s)
          (createdAt s) (updatedAt s).
Definition set_quantity (v : Z) (s : Sweet) : Sweet :=
  mkSweet (name s) (category s) (price s) v (description s) (inStock s)
          (createdAt s) (updatedAt s).
Definition set_description (v : option string) (s : Sweet) : Sweet :=
  mkSweet (name s) (category s) (price s) (quantity s) v (inStock s)
          (createdAt s) (updatedAt s).
Definition set_inStock (v : bool) (s : Sweet) : Sweet :=
  mkSweet (name s) (category s) (price s) (quantity s) (description s) v
          (createdAt s) (updatedAt s).
Definition set_updatedAt (v : Z) (s : Sweet) : Sweet :=
  mkSweet (name s) (category s) (price s) (quantity s) (description s)
          (inStock s) (createdAt s) v.

(** The collection, keyed by [_id]. *)
Abbreviation Store := (gmap ObjectId Sweet).

(** A hydrated Mongoose document: its [_id], its paths, and whether
    [inStock] is marked modified since it was loaded. *)
Record Document := mkDocument {
  _id : ObjectId;
  paths : Sweet;
  inStockModified : bool
}.

Definition hydrate (oid : ObjectId) (s : Sweet) : Document :=
  mkDocument oid s false.

(** [doc.inStock = v]: assigning the value a path already has does not mark
    it modified. *)
Definition assign_inStock (v : bool) (d : Document) : Document :=
  if Bool.eqb v (inStock (paths d)) then d
  else mkDocument (_id d) (set_inStock v (paths d)) true.

(** [sweetSchema.pre('save', function () { this.inStock = this.quantity > 0; })] *)
Definition preSave (d : Document) : Document :=
  assign_inStock (0 <? quantity (paths d)) d.

(** [sweetSchema.methods.isAvailable] *)
Definition isAvailable (s : Sweet) (requestedQuantity : Z) : bool :=
  requestedQuantity <=? quantity s.

(** ** Schema setters and validators *)

(** [String.prototype.trim] on the ASCII white space and line terminators
    (the setter of [trim: true]). *)
Definition isWhiteSpace (c : ascii) : bool :=
  let n := nat_of_ascii c in
  Nat.eqb n 32 || (Nat.leb 9 n && Nat.leb n 13).

Fixpoint trimStart (s : string) : string :=
  match s with
  | EmptyString => EmptyString
  | String c s' => if isWhiteSpace c then trimStart s' else s
  end.

Fixpoint trimEnd (s : string) : string :=
  match s with
  | EmptyString => EmptyString
  | String c s' =>
      match trimEnd s' with
      | EmptyString => if isWhiteSpace c then EmptyString else String c EmptyString
      | t => String c t
      end
  end.

Definition trim (s : string) : string := trimEnd (trimStart s).

Definition categories : list string :=
  ["Chocolate"; "Candy"; "Gummy"; "Lollipop"; "Hard Candy"; "Soft Candy"; "Other"].

(** The values of [name], [category], [price], [quantity] and [description]
    taken from a request body; [None] is [undefined]. *)
Record SweetInput := mkInput {
  in_name : option string;
  in_category : option string;
  in_price : option Q;
  in_quantity : option Q;
  in_description : option string
}.

(** Each validator returns the message of the first check that fails on the
    path, in the order Mongoose runs them: [required] first, then the
    checks in the order the schema declares them. *)
Module Validate.

Definition name (v : string) : option string :=
  if Nat.eqb (String.length v) 0 then Some "Sweet name is required"
  else if Nat.ltb (String.length v) 2
       then Some "Sweet name must be at least 2 characters long"
  else if Nat.ltb 100 (String.length v)
       then Some "Sweet name cannot exceed 100 characters"
  else None.

Definition category (v : string) : option string :=
  if Nat.eqb (String.length v) 0 then Some "Category is required"
  else if existsb (String.eqb v) categories then None
  else Some (v ++ " is not a valid category").

Definition price (v : Q) : option string :=
  if Number.lt v 0 then Some "Price must be a positive number"
  else if Number.gt v 0 then None
  else Some "Price must be greater than 0".

Definition quantity (v : Q) : option string :=
  if Number.lt v 0 then Some "Quantity cannot be negative"
  else if Number.isInteger v then None
  else Some "Quantity must be a whole number".

Definition description (v : string) : option string :=
  if Nat.ltb 500 (String.length v)
  then Some "Description cannot exceed 500 characters"
  else None.

(** A path that is [undefined] fails when it is required and has no
    default, and is skipped otherwise. *)
Definition path {A} (required : option string) (check : A -> option string)
    (v : option A) : list string :=
  match v with
  | Some a => option_list (check a)
  | None => option_list required
  end.

(** Validation of a new document ([Sweet.create]). *)
Definition document (i : SweetInput) : list string :=
  path (Some "Sweet name is required") name (in_name i)
  ++ path (Some "Category is required") category (in_category i)
  ++ path (Some "Price is required") price (in_price i)
  ++ path None quantity (in_quantity i)
  ++ path None description (in_description i).

(** Update validators ([runValidators: true]): only the paths that the
    update sets are checked. *)
Definition update (i : SweetInput) : list string :=
  path None name (in_name i)
  ++ path None category (in_category i)
  ++ path None price (in_price i)
  ++ path None quantity (in_quantity i)
  ++ path None description (in_description i).

End Validate.

(** Casting of the input by the schema: strings are trimmed. *)
Definition castInput (i : SweetInput) : SweetInput :=
  mkInput (trim <$> in_name i) (trim <$> in_category i) (in_price i)
          (in_quantity i) (trim <$> in_description i).

(** ** The model methods *)

Inductive MongooseError :=
| CastError
| ValidationError (messages : list string)
| DocumentNotFoundError
| MongoServerError.

(** What an awaited model method call produces. *)
Inductive Result :=
| Threw (e : MongooseError)
| Null
| Found (d : Document).

(** The environment of one store call. *)
Record Env := mkEnv { up : bool; now : Z }.

(** [Sweet.findById(id)] *)
Definition Sweet_findById (e : Env) (id : string) (st : Store) : Result :=
  match castObjectId id with
  | None => Threw CastError
  | Some oid =>
      if up e then
        match st !! oid with
        | Some s => Found (hydrate oid s)
        | None => Null
        end
      else Threw MongoServerError
  end.

(** [Sweet.findOneAndUpdate({ _id: id, quantity: { $gte: amount } },
                            { $inc: { quantity: -amount } },
                            { new: true, runValidators: true })].
    Update validators do not apply to [$inc]; the [timestamps] option adds
    [updatedAt] to the update.  The new quantity is the double that the
    subtraction yields. *)
Definition Sweet_findOneAndUpdate (e : Env) (id : string) (amount : Z)
    (st : Store) : Result * Store :=
  match castObjectId id with
  | None => (Threw CastError, st)
  | Some oid =>
      if up e then
        match st !! oid with
        | Some s =>
            if amount <=? quantity s then
              let s' := set_updatedAt (now e)
                          (set_quantity (Number.sub (quantity s) amount) s) in
              (Found (hydrate oid s'), <[oid := s']> st)
            else (Null, st)
        | None => (Null, st)
        end
      else (Threw MongoServerError, st)
  end.

(** The [$set] that [findByIdAndUpdate] sends: the keys whose value is
    [undefined] are stripped from the update, and [timestamps] adds
    [updatedAt]. *)
Definition applySet (i : SweetInput) (t : Z) (s : Sweet) : Sweet :=
  let s := from_option (fun v => set_name v s) s (in_name i) in
  let s := from_option (fun v => set_category v s) s (in_category i) in
  let s := from_option (fun v => set_price v s) s (in_price i) in
  let s := from_option (fun v => set_quantity (Number.toZ v) s) s (in_quantity i) in
  let s := from_option (fun v => set_description (Some v) s) s (in_description i) in
  set_updatedAt t s.

(** [Sweet.findByIdAndUpdate(id, { name, category, price, quantity,
    description }, { new: true, runValidators: true })].  The filter is cast
    first, then the update is cast and validated, then the database applies
    it.  No [save] middleware runs. *)
Definition Sweet_findByIdAndUpdate (e : Env) (id : string) (i : SweetInput)
    (st : Store) : Result * Store :=
  match castObjectId id with
  | None => (Threw CastError, st)
  | Some oid =>
      let i := castInput i in
      match Validate.update i with
      | [] =>
          if up e then
            match st !! oid with
            | Some s =>
                let s' := applySet i (now e) s in
                (Found (hydrate oid s'), <[oid := s']> st)
            | None => (Null, st)
            end
          else (Threw MongoServerError, st)
      | messages => (Threw (ValidationError messages), st)
      end
  end.

(** [Sweet.create({ name, category, price, quantity, description })]: the
    document is built with the schema defaults, validated, passed through
    the pre-save hook and inserted under a new [_id]. *)
Definition Sweet_create (e : Env) (newId : ObjectId) (i : SweetInput)
    (st : Store) : Result * Store :=
  let i := castInput i in
  match Validate.document i with
  | [] =>
      let s := mkSweet (default "" (in_name i)) (default "" (in_category i))
                       (default 0%Q (in_price i))
                       (Number.toZ (default 0%Q (in_quantity i)))
                       (in_description i) true (now e) (now e) in
      let d := preSave (hydrate newId s) in
      if up e then
        match st !! newId with
        | None => (Found (hydrate newId (paths d)), <[newId := paths d]> st)
        | Some _ => (Threw MongoServerError, st)
        end
      else (Threw MongoServerError, st)
  | messages => (Threw (ValidationError messages), st)
  end.

(** [doc.save()] on a document that was loaded from the collection: the
    pre-save hooks run, then the modified paths are written to the stored
    document with that [_id]; with nothing modified the call only checks
    that the document still exists.  The validation that [save] runs first
    is left out: the stored paths went through the validators when they
    were written, and [inStock] has none. *)
Definition Document_save (e : Env) (d : Document) (st : Store)
    : (MongooseError + Document) * Store :=
  let d := preSave d in
  if up e then
    match st !! _id d with
    | None => (inl DocumentNotFoundError, st)
    | Some cur =>
        if inStockModified d then
          let d' := hydrate (_id d) (set_updatedAt (now e) (paths d)) in
          (inr d',
           <[_id d := set_updatedAt (now e) (set_inStock (inStock (paths d)) cur)]> st)
        else (inr d, st)
    end
  else (inl MongoServerError, st).

Definition saveOutcome (r : MongooseError + Document) : Result :=
  match r with
  | inl err => Threw err
  | inr d => Found d
  end.

(** ** The log of model method calls *)

Inductive Call :=
| FindById (id : string)
| FindOneAndUpdate (id : string) (amount : Z)
| FindByIdAndUpdate (id : string) (i : SweetInput)
| Create (i : SweetInput)
| Save (oid : ObjectId).

Record Event := mkEvent { call : Call; outcome : Result }.

(** The amounts that the conditional decrement took from the document
    [oid], in the order of the log. *)
Fixpoint decrements (oid : ObjectId) (log : list Event) : list Z :=
  match log with
  | [] => []
  | mkEvent (FindOneAndUpdate _ amount) (Found d) :: log' =>
      if N.eqb (_id d) oid then amount :: decrements oid log'
      else decrements oid log'
  | _ :: log' => decrements oid log'
  end.

Definition sumZ (l : list Z) : Z := fold_right Z.add 0 l.

(** ** Responses *)

(** [res.status(status).json({ success, message, data })] *)
Record Response := mkResponse {
  status : Z;
  success : bool;
  message : option string;
  data : option (ObjectId * Sweet)
}.

Definition fail (code : Z) (msg : string) : Response :=
  mkResponse code false (Some msg) None.

Definition toJSON (d : Document) : ObjectId * Sweet := (_id d, paths d).

Definition showZ (z : Z) : string := DecimalString.NilZero.string_of_int (Z.to_int z).

(** ** The controllers *)

(** [getSweetById] *)
Definition getSweetById (e : Env) (id : string) (st : Store)
    : Response * Store * list Event :=
  let r := Sweet_findById e id st in
  let log := [mkEvent (FindById id) r] in
  match r with
  | Found sweet => (mkResponse 200 true None (Some (toJSON sweet)), st, log)
  | Null => (fail 404 "Sweet not found", st, log)
  | Threw CastError => (fail 404 "Sweet not found", st, log)
  | Threw _ => (fail 500 "Error fetching sweet", st, log)
  end.

(** [!name]: [undefined] and the empty string are falsy. *)
Definition falsy (v : option string) : bool :=
  match v with
  | None => true
  | Some s => Nat.eqb (String.length s) 0
  end.

(** [v === undefined] *)
Definition undefined {A} (v : option A) : bool :=
  match v with
  | None => true
  | Some _ => false
  end.

(** [createSweet] *)
Definition createSweet (e : Env) (newId : ObjectId) (body : SweetInput)
    (st : Store) : Response * Store * list Event :=
  if falsy (in_name body) || falsy (in_category body)
     || undefined (in_price body) || undefined (in_quantity body)
  then (fail 400 "Please provide name, category, price, and quantity", st, [])
  else if from_option (fun p => Number.le p 0) false (in_price body)
  then (fail 400 "Price must be greater than 0", st, [])
  else if from_option (fun q => Number.lt q 0) false (in_quantity body)
  then (fail 400 "Quantity cannot be negative", st, [])
  else
    let '(r, st') := Sweet_create e newId body st in
    let log := [mkEvent (Create body) r] in
    match r with
    | Found sweet =>
        (mkResponse 201 true (Some "Sweet created successfully") (Some (toJSON sweet)),
         st', log)
    | Threw (ValidationError messages) =>
        (fail 400 (String.concat ", " messages), st', log)
    | _ => (fail 500 "Error creating sweet", st', log)
    end.

(** [updateSweet] *)
Definition updateSweet (e : Env) (id : string) (body : SweetInput)
    (st : Store) : Response * Store * list Event :=
  if from_option (fun p => Number.le p 0) false (in_price body)
  then (fail 400 "Price must be greater than 0", st, [])
  else if from_option (fun q => Number.lt q 0) false (in_quantity body)
  then (fail 400 "Quantity cannot be negative", st, [])
  else
    let '(r, st') := Sweet_findByIdAndUpdate e id body st in
    let log := [mkEvent (FindByIdAndUpdate id body) r] in
    match r with
    | Found sweet =>
        (mkResponse 200 true (Some "Sweet updated successfully") (Some (toJSON sweet)),
         st', log)
    | Null => (fail 404 "Sweet not found", st', log)
    | Threw CastError => (fail 404 "Sweet not found", st', log)
    | Threw (ValidationError messages) =>
        (fail 400 (String.concat ", " messages), st', log)
    | Threw _ => (fail 500 "Error updating sweet", st', log)
    end.

(** The [catch] block of [purchaseSweet]. *)
Definition purchase_catch (e : MongooseError) : Response :=
  match e with
  | CastError => fail 404 "Sweet not found"
  | _ => fail 500 "Error processing purchase"
  end.

(** [req.body] of a purchase request: [undefined] when the request has no
    body that the JSON parser reads, and otherwise the parsed object, of
    which the handler reads the property [quantity]. *)
Inductive Body :=
| Undefined
| Object (q : option Q).

(** [const { quantity = 1 } = req.body]: the property of the body, 1 when
    the body leaves it out; destructuring [undefined] throws a TypeError
    ([None]). *)
Definition requestedQuantity (body : Body) : option Q :=
  match body with
  | Undefined => None
  | Object q => Some (default 1%Q q)
  end.

(** [quantity < 1 || !Number.isInteger(quantity)] *)
Definition invalidQuantity (q : Q) : bool :=
  Number.lt q 1 || negb (Number.isInteger q).

(** [purchaseSweet], run without interruption: [e1] is the environment of
    the first store call and [e2] that of the second.  The TypeError of the
    destructuring is thrown inside [try]; its name is not CastError, so the
    [catch] block answers it with 500. *)
Definition purchaseSweet (e1 e2 : Env) (id : string) (body : Body)
    (st : Store) : Response * Store * list Event :=
  match requestedQuantity body with
  | None => (fail 500 "Error processing purchase", st, [])
  | Some q =>
      if invalidQuantity q
      then (fail 400 "Quantity must be a positive integer", st, [])
      else
        let amount := Number.toZ q in
        let '(r1, st1) := Sweet_findOneAndUpdate e1 id amount st in
        let ev1 := mkEvent (FindOneAndUpdate id amount) r1 in
        match r1 with
        | Threw err => (purchase_catch err, st1, [ev1])
        | Null =>
            let r2 := Sweet_findById e2 id st1 in
            let ev2 := mkEvent (FindById id) r2 in
            match r2 with
            | Threw err => (purchase_catch err, st1, [ev1; ev2])
            | Null => (fail 404 "Sweet not found", st1, [ev1; ev2])
            | Found existingSweet =>
                (fail 400 ("Insufficient quantity. Only "
                           ++ showZ (quantity (paths existingSweet)) ++ " available."),
                 st1, [ev1; ev2])
            end
        | Found sweet =>
            let sweet := assign_inStock (0 <? quantity (paths sweet)) sweet in
            let '(r2, st2) := Document_save e2 sweet st1 in
            let ev2 := mkEvent (Save (_id sweet)) (saveOutcome r2) in
            match r2 with
            | inl err => (purchase_catch err, st2, [ev1; ev2])
            | inr saved =>
                (mkResponse 200 true (Some "Purchase successful") (Some (toJSON saved)),
                 st2, [ev1; ev2])
            end
        end
  end.

(** ** Concurrent purchases

    A running [purchaseSweet] handler gives up control at each [await].  Its
    states are the points at which it waits for the store; one step runs the
    handler up to and including its next store call. *)

Inductive Handler :=
| Requested (id : string) (body : Body)
| AwaitLookup (id : string)
| AwaitSave (sweet : Document)
| Responded (r : Response).

Definition handler_step (e : Env) (h : Handler) (st : Store)
    : Handler * Store * list Event :=
  match h with
  | Requested id body =>
      match requestedQuantity body with
      | None => (Responded (fail 500 "Error processing purchase"), st, [])
      | Some q =>
          if invalidQuantity q
          then (Responded (fail 400 "Quantity must be a positive integer"), st, [])
          else
            let amount := Number.toZ q in
            let '(r1, st1) := Sweet_findOneAndUpdate e id amount st in
            let ev1 := mkEvent (FindOneAndUpdate id amount) r1 in
            match r1 with
            | Threw err => (Responded (purchase_catch err), st1, [ev1])
            | Null => (AwaitLookup id, st1, [ev1])
            | Found sweet => (AwaitSave sweet, st1, [ev1])
            end
      end
  | AwaitLookup id =>
      let r2 := Sweet_findById e id st in
      let ev2 := mkEvent (FindById id) r2 in
      match r2 with
      | Threw err => (Responded (purchase_catch err), st, [ev2])
      | Null => (Responded (fail 404 "Sweet not found"), st, [ev2])
      | Found existingSweet =>
          (Responded (fail 400 ("Insufficient quantity. Only "
                                ++ showZ (quantity (paths existingSweet))
                                ++ " available.")),
           st, [ev2])
      end
  | AwaitSave sweet =>
      let sweet := assign_inStock (0 <? quantity (paths sweet)) sweet in
      let '(r2, st2) := Document_save e sweet st in
      let ev2 := mkEvent (Save (_id sweet)) (saveOutcome r2) in
      match r2 with
      | inl err => (Responded (purchase_catch err), st2, [ev2])
      | inr saved =>
          (Responded (mkResponse 200 true (Some "Purchase successful")
                                 (Some (toJSON saved))),
           st2, [ev2])
      end
  | Responded r => (Responded r, st, [])
  end.

(** The store, the handlers in flight and the log of their store calls. *)
Record System := mkSystem {
  db : Store;
  handlers : list Handler;
  calls : list Event
}.

(** One turn of the scheduler: which handler runs, and the environment of
    its store call. *)
Record Turn := mkTurn { who : nat; env : Env }.

Definition system_step (sys : System) (t : Turn) : System :=
  match handlers sys !! who t with
  | None => sys
  | Some h =>
      let '(h', st', evs) := handler_step (env t) h (db sys) in
      mkSystem st' (<[who t := h']> (handlers sys)) (calls sys ++ evs)
  end.

Definition run (schedule : list Turn) (sys : System) : System :=
  fold_left system_step schedule sys.

(** The system in which the purchase requests [reqs] have all arrived and
    none has run yet. *)
Definition arrive (st : Store) (reqs : list (string * Body)) : System :=
  mkSystem st (map (fun r => Requested (fst r) (snd r)) reqs) [].

(** The response of a handler that has finished. *)
Definition response (h : Handler) : option Response :=
  match h with
  | Responded r => Some r
  | _ => None
  end.

(** ** Listing and deleting sweets *)

(** The body of a response of any route: [{ success, message, count, data }],
    where [data] is absent, the empty object, one document or a list. *)
Inductive Data :=
| NoData
| EmptyObject
| One (d : ObjectId * Sweet)
| Many (l : list (ObjectId * Sweet)).

Record Reply := mkReply {
  code : Z;
  ok : bool;
  text : option string;
  count : option nat;
  payload : Data
}.

Definition reply (r : Response) : Reply :=
  mkReply (status r) (success r) (message r) None
          (from_option One NoData (data r)).

(** The order of [sort({ createdAt: -1 })]. *)
Definition newerFirst (a b : ObjectId * Sweet) : Prop :=
  createdAt b.2 <= createdAt a.2.

#[global] Instance newerFirst_dec (a b : ObjectId * Sweet) : Decision (newerFirst a b) :=
  Z_le_dec (createdAt b.2) (createdAt a.2).

(** [Sweet.find().sort({ createdAt: -1 })].  MongoDB leaves the order of
    documents with equal [createdAt] open; the sort used here keeps them in
    the order of their [_id]. *)
Definition Sweet_find_sorted (e : Env) (st : Store)
    : MongooseError + list (ObjectId * Sweet) :=
  if up e then inr (merge_sort newerFirst (map_to_list st))
  else inl MongoServerError.

(** [getAllSweets] *)
Definition getAllSweets (e : Env) (st : Store) : Reply * Store :=
  match Sweet_find_sorted e st with
  | inr sweets =>
      (mkReply 200 true None (Some (length sweets)) (Many sweets), st)
  | inl _ => (reply (fail 500 "Error fetching sweets"), st)
  end.

(** [Sweet.findByIdAndDelete(id)] *)
Definition Sweet_findByIdAndDelete (e : Env) (id : string) (st : Store)
    : Result * Store :=
  match castObjectId id with
  | None => (Threw CastError, st)
  | Some oid =>
      if up e then
        match st !! oid with
        | Some s => (Found (hydrate oid s), delete oid st)
        | None => (Null, st)
        end
      else (Threw MongoServerError, st)
  end.

(** [deleteSweet] *)
Definition deleteSweet (e : Env) (id : string) (st : Store) : Reply * Store :=
  let '(r, st') := Sweet_findByIdAndDelete e id st in
  match r with
  | Found sweet =>
      (mkReply 200 true (Some "Sweet deleted successfully") None EmptyObject, st')
  | Null => (reply (fail 404 "Sweet not found"), st')
  | Threw CastError => (reply (fail 404 "Sweet not found"), st')
  | Threw _ => (reply (fail 500 "Error deleting sweet"), st')
  end.

(** ** The statics and methods of the model *)

(** [sweetSchema.statics.findByCategory]: [this.find({ category })]; the
    filter is cast by the schema, which trims it. *)
Definition findByCategory (e : Env) (c : string) (st : Store)
    : MongooseError + list (ObjectId * Sweet) :=
  if up e then
    inr (filter (fun d => category d.2 = trim c) (map_to_list st))
  else inl MongoServerError.

(** [sweetSchema.statics.findInStock]:
    [this.find({ inStock: true, quantity: { $gt: 0 } })] *)
Definition findInStock (e : Env) (st : Store)
    : MongooseError + list (ObjectId * Sweet) :=
  if up e then
    inr (filter (fun d => inStock d.2 = true /\ 0 < quantity d.2) (map_to_list st))
  else inl MongoServerError.

(** A document on which a method of the model runs: besides [inStock], its
    [quantity] may be marked modified. *)
Record Loaded := mkLoaded {
  document : Document;
  quantityModified : bool
}.

Definition load (oid : ObjectId) (s : Sweet) : Loaded :=
  mkLoaded (hydrate oid s) false.

(** [this.quantity = v] *)
Definition assign_quantity (v : Z) (l : Loaded) : Loaded :=
  if v =? quantity (paths (document l)) then l
  else mkLoaded (mkDocument (_id (document l))
                            (set_quantity v (paths (document l)))
                            (inStockModified (document l)))
                true.

(** What a method of the model throws. *)
Inductive Thrown :=
| PlainError (msg : string)
| FromMongoose (err : MongooseError).

(** [this.save()] inside a method: the modified [quantity] is validated
    ([min: 0]), the pre-save hook runs, and the modified paths are written
    with [$set] to the stored document with that [_id]. *)
Definition Loaded_save (e : Env) (l : Loaded) (st : Store)
    : (Thrown + Loaded) * Store :=
  if quantityModified l && (quantity (paths (document l)) <? 0)
  then (inl (FromMongoose (ValidationError ["Quantity cannot be negative"])), st)
  else
    let d := preSave (document l) in
    if up e then
      match st !! _id d with
      | None => (inl (FromMongoose DocumentNotFoundError), st)
      | Some cur =>
          if quantityModified l || inStockModified d then
            let cur := if quantityModified l
                       then set_quantity (quantity (paths d)) cur else cur in
            let cur := if inStockModified d
                       then set_inStock (inStock (paths d)) cur else cur in
            (inr (load (_id d) (set_updatedAt (now e) (paths d))),
             <[_id d := set_updatedAt (now e) cur]> st)
          else (inr (mkLoaded d false), st)
      end
    else (inl (FromMongoose MongoServerError), st).

(** [sweetSchema.methods.decreaseQuantity]: the amount defaults to 1, and
    [this.quantity -= amount] yields the double nearest to the difference.
    When that double is not an integer, the validation that [save] runs
    before anything else rejects the document (the whole-number validator
    of the schema), and nothing is written. *)
Definition decreaseQuantity (e : Env) (amount : option Q) (l : Loaded)
    (st : Store) : (Thrown + Loaded) * Store :=
  let amount := default 1%Q amount in
  if Number.lt (Number.ofZ (quantity (paths (document l)))) amount
  then (inl (PlainError "Insufficient quantity available"), st)
  else
    let difference := Number.minus (Number.ofZ (quantity (paths (document l)))) amount in
    if Number.isInteger difference then
      let l := assign_quantity (Number.toZ difference) l in
      let l := mkLoaded (assign_inStock (0 <? quantity (paths (document l))) (document l))
                        (quantityModified l) in
      Loaded_save e l st
    else (inl (FromMongoose (ValidationError ["Quantity must be a whole number"])), st).

(** ** Authentication and the routes of the sweets *)

(** A user as a request carries it: [select('-password')] leaves the
    password out. *)
Record User := mkUser {
  userName : string;
  email : string;
  role : string
}.

(** [str.split(' ')] *)
Fixpoint split (sep : ascii) (s : string) : list string :=
  match s with
  | EmptyString => [EmptyString]
  | String c s' =>
      if Ascii.eqb c sep then EmptyString :: split sep s'
      else match split sep s' with
           | w :: ws => String c w :: ws
           | [] => [String c EmptyString]
           end
  end.

(** The token that [protect] and [optionalAuth] read from the
    [Authorization] header. *)
Definition bearerToken (authorization : option string) : option string :=
  match authorization with
  | Some header =>
      if negb (falsy (Some header)) && String.prefix "Bearer" header
      then split " " header !! 1%nat
      else None
  | None => None
  end.

(** What a middleware does: pass the request on, or answer it. *)
Inductive Passage :=
| Next (user : option User)
| Answer (r : Response).

(** [authorize(...roles)] *)
Definition authorize (roles : list string) (user : option User) : Passage :=
  match user with
  | None => Answer (fail 401 "User not authenticated")
  | Some u =>
      if existsb (String.eqb (role u)) roles then Next user
      else Answer (fail 403 ("User role '" ++ role u
             ++ "' is not authorized to access this route. Admin access required."))
  end.

(** The calls that a route makes on the models. *)
Inductive Access :=
| OnSweet (ev : Event)
| SweetFind
| SweetFindByIdAndDelete (id : string)
| UserFindById (id : string).

(** The routes of [routes/sweetRoutes.js]. *)
Inductive Route :=
| GET_root
| GET_id (id : string)
| POST_root (body : SweetInput)
| PUT_id (id : string) (body : SweetInput)
| DELETE_id (id : string)
| POST_id_purchase (id : string) (body : Body).

Section Auth.

(** [jwt.verify(token, secret)]: the [id] of the payload of a token that
    verifies, [None] when [verify] throws. *)
Variable jwt_verify : string -> option string.

(** [User.findById(id).select('-password')] *)
Definition User_findById (e : Env) (id : string) (users : gmap ObjectId User)
    : MongooseError + option User :=
  match castObjectId id with
  | None => inl CastError
  | Some oid => if up e then inr (users !! oid) else inl MongoServerError
  end.

(** [protect], with the model calls it makes. *)
Definition protect (e : Env) (users : gmap ObjectId User)
    (authorization : option string) : Passage * list Access :=
  let token := bearerToken authorization in
  if falsy token
  then (Answer (fail 401 "Not authorized to access this route. No token provided."), [])
  else
    match jwt_verify (default "" token) with
    | None => (Answer (fail 401 "Not authorized. Invalid token."), [])
    | Some id =>
        match User_findById e id users with
        | inl _ => (Answer (fail 401 "Not authorized. Invalid token."), [UserFindById id])
        | inr None =>
            (Answer (fail 401 "User not found. Token may be invalid."), [UserFindById id])
        | inr (Some u) => (Next (Some u), [UserFindById id])
        end
    end.

(** [optionalAuth]: the user it leaves on the request. *)
Definition optionalAuth (e : Env) (users : gmap ObjectId User)
    (authorization : option string) : option User :=
  let token := bearerToken authorization in
  if falsy token then None
  else
    match jwt_verify (default "" token) with
    | None => None
    | Some id =>
        match User_findById e id users with
        | inr (Some u) => Some u
        | _ => None
        end
    end.

(** [protect, authorize('admin'), handler] *)
Definition adminOnly (eAuth : Env) (users : gmap ObjectId User)
    (authorization : option string)
    (handler : Store -> Reply * Store * list Access) (st : Store)
    : Reply * Store * list Access :=
  match protect eAuth users authorization with
  | (Answer r, log) => (reply r, st, log)
  | (Next user, log) =>
      match authorize ["admin"] user with
      | Answer r => (reply r, st, log)
      | Next _ =>
          let '(r, st', log') := handler st in (r, st', (log ++ log')%list)
      end
  end.

(** The router of the sweets: [eAuth] is the environment of the lookup of
    the user, [e1] and [e2] those of the calls of the handler, [newId] the
    identifier that a new document gets. *)
Definition sweetRoutes (eAuth e1 e2 : Env) (newId : ObjectId)
    (users : gmap ObjectId User) (authorization : option string)
    (route : Route) (st : Store) : Reply * Store * list Access :=
  match route with
  | GET_root =>
      let '(r, st') := getAllSweets e1 st in (r, st', [SweetFind])
  | GET_id id =>
      let '(r, st', log) := getSweetById e1 id st in (reply r, st', OnSweet <$> log)
  | POST_root body =>
      adminOnly eAuth users authorization
        (fun st => let '(r, st', log) := createSweet e1 newId body st in
                   (reply r, st', OnSweet <$> log)) st
  | PUT_id id body =>
      adminOnly eAuth users authorization
        (fun st => let '(r, st', log) := updateSweet e1 id body st in
                   (reply r, st', OnSweet <$> log)) st
  | DELETE_id id =>
      adminOnly eAuth users authorization
        (fun st => let '(r, st') := deleteSweet e1 id st in
                   (r, st', [SweetFindByIdAndDelete id])) st
  | POST_id_purchase id body =>
      let '(r, st', log) := purchaseSweet e1 e2 id body st in
      (reply r, st', OnSweet <$> log)
  end.

End Auth.

(** ** Sequences of requests *)

(** A request with everything that decides its outcome. *)
Record Request := mkRequest {
  authorization : option string;
  route : Route;
  authEnv : Env;
  env1 : Env;
  env2 : Env;
  freshId : ObjectId
}.

Definition serve (jwt_verify : string -> option string)
    (users : gmap ObjectId User) (st : Store) (rq : Request) : Store :=
  (sweetRoutes jwt_verify (authEnv rq) (env1 rq) (env2 rq) (freshId rq) users
               (authorization rq) (route rq) st).1.2.

(** The store after the requests have been served one after the other. *)
Definition serveAll (jwt_verify : string -> option string)
    (users : gmap ObjectId User) (rqs : list Request) (st : Store) : Store :=
  fold_left (serve jwt_verify users) rqs st.

(** ** Predicates on responses, stores and handlers *)


(** Every item that has stock is flagged as in stock. *)
Definition flagged (st : Store) : Prop :=
  forall oid s, st !! oid = Some s -> 0 < quantity s -> inStock s = true.

(** The copy that a handler is about to save: it is as the decrement
    returned it; it is flagged as in stock if it has stock; the store still
    has the document; and if the copy has no stock, neither has the stored
    document. *)
Definition current (st : Store) (h : Handler) : Prop :=
  match h with
  | AwaitSave d =>
      inStockModified d = false
      /\ (0 < quantity (paths d) -> inStock (paths d) = true)
      /\ exists cur, st !! _id d = Some cur
                     /\ (quantity (paths d) <= 0 -> quantity cur <= 0)
  | _ => True
  end.

(** The handler has taken the last unit of the item [oid] and has yet to
    save: its copy has quantity 0 and still the inStock of before. *)
Definition savesLastUnit (oid : ObjectId) (h : Handler) : Prop :=
  match h with
  | AwaitSave d => _id d = oid /\ quantity (paths d) = 0 /\ inStock (paths d) = true
  | _ => False
  end.

(** What a reader of the store can observe of an item while purchases run:
    inStock equal to (quantity > 0), or quantity 0 with inStock still true
    while the handler that took the last unit has yet to save. *)
Definition settled (sys : System) : Prop :=
  forall oid s, db sys !! oid = Some s ->
    inStock s = (0 <? quantity s)
    \/ (quantity s = 0 /\ inStock s = true
        /\ exists i h, handlers sys !! i = Some h /\ savesLastUnit oid h).

(** The handler has answered its request. *)
Definition responded (h : Handler) : Prop :=
  match h with
  | Responded _ => True
  | _ => False
  end.

(** Every store call of the schedule reaches the database. *)
Definition reachable (schedule : list Turn) : Prop :=
  Forall (fun t => up (env t) = true) schedule.



(** A stored document that passes the validators of the schema. *)
Definition schemaValid (s : Sweet) : Prop :=
  Validate.name (name s) = None
  /\ Validate.category (category s) = None
  /\ Validate.price (price s) = None
  /\ 0 <= quantity s
  /\ forall d, description s = Some d -> Validate.description d = None.

Definition allValid (st : Store) : Prop :=
  forall oid s, st !! oid = Some s -> schemaValid s.

(** Every item has inStock equal to (quantity > 0). *)
Definition consistent (st : Store) : Prop :=
  forall oid s, st !! oid = Some s -> inStock s = (0 <? quantity s).

(** The routes that go through [protect] and [authorize('admin')]. *)
Definition adminRoute (rt : Route) : Prop :=
  match rt with
  | POST_root _ | PUT_id _ _ | DELETE_id _ => True
  | _ => False
  end.

(** The request carries a token that verifies and names a stored user whose
    role is admin, and the lookup of that user reaches the database. *)
Definition authenticatedAdmin (jwt_verify : string -> option string)
    (users : gmap ObjectId User) (e : Env) (auth : option string) : Prop :=
  exists token id oid u,
    bearerToken auth = Some token /\ token <> ""
    /\ jwt_verify token = Some id /\ castObjectId id = Some oid
    /\ up e = true /\ users !! oid = Some u /\ role u = "admin".

(** What the handler behind an admin route does. *)
Definition adminHandler (e : Env) (newId : ObjectId) (rt : Route) (st : Store)
    : Reply * Store * list Access :=
  match rt with
  | POST_root body =>
      let '(r, st', log) := createSweet e newId body st in
      (reply r, st', OnSweet <$> log)
  | PUT_id id body =>
      let '(r, st', log) := updateSweet e id body st in
      (reply r, st', OnSweet <$> log)
  | DELETE_id id =>
      let '(r, st') := deleteSweet e id st in (r, st', [SweetFindByIdAndDelete id])
  | _ => (reply (fail 404 "Not found"), st, [])
  end.

(** ** Sample data *)

Definition sampleId : string := "507f1f77bcf86cd799439011".

Definition sampleOid : ObjectId :=
  Eval vm_compute in default 0%N (castObjectId sampleId).

Definition sample (q : Z) (stock : bool) : Sweet :=
  mkSweet "Chocolate Bar" "Chocolate" (5 # 1) q (Some "Delicious chocolate")
          stock 0 0.

Definition shelf (q : Z) : Store := {[ sampleOid := sample q true ]}.

Definition online (t : Z) : Env := mkEnv true t.
Definition offline (t : Z) : Env := mkEnv false t.

(** Three purchases of 3, 2 and 4 units of one item, and a schedule that
    interleaves their store calls. *)
Definition threeBuyers : list (string * Body) :=
  [(sampleId, Object (Some 3%Q)); (sampleId, Object (Some 2%Q));
   (sampleId, Object (Some 4%Q))].

Definition interleaved : list Turn :=
  [mkTurn 0 (online 1); mkTurn 1 (online 2); mkTurn 2 (online 3);
   mkTurn 1 (online 4); mkTurn 0 (online 5); mkTurn 2 (online 6)].

(** Two users and the tokens that identify them. *)
Definition adminId : string := "64b7f0c2a1d3e4f5a6b7c8d9".
Definition userId : string := "64b7f0c2a1d3e4f5a6b7c8da".

Definition adminOid : ObjectId :=
  Eval vm_compute in default 0%N (castObjectId adminId).
Definition userOid : ObjectId :=
  Eval vm_compute in default 0%N (castObjectId userId).

Definition sampleUsers : gmap ObjectId User :=
  {[ adminOid := mkUser "Admin User" "admin@sweetshop.com" "admin";
     userOid := mkUser "Normal User" "user@sweetshop.com" "user" ]}.

Definition sampleVerify (token : string) : option string :=
  if String.eqb token "admin-token" then Some adminId
  else if String.eqb token "user-token" then Some userId
  else None.

Definition lollipop : SweetInput :=
  mkInput (Some "Lollipop") (Some "Candy") (Some 2%Q) (Some 200%Q)
          (Some "Sweet lollipop").

(** * Properties *)

(** ** Numbers and amounts *)

Lemma toZ_ofZ (a : Z) : Number.toZ (Number.ofZ a) = a.
Proof. unfold Number.toZ, Number.ofZ; simpl. apply Z.div_1_r. Qed.

Lemma isInteger_ofZ (a : Z) : Number.isInteger (Number.ofZ a) = true.
Proof.
  unfold Number.isInteger, Number.ofZ; simpl.
  rewrite Z.mod_1_r. reflexivity.
Qed.

Lemma positive_amount_valid (a : Z) :
  1 <= a -> invalidQuantity (Number.ofZ a) = false.
Proof.
  intros Ha. unfold invalidQuantity. rewrite isInteger_ofZ.
  unfold Number.lt, Number.ofZ, Qle_bool; simpl.
  replace (1 * 1 <=? a * 1) with true; [reflexivity|].
  symmetry. apply Z.leb_le. lia.
Qed.

(** A number that passes the validation of [purchaseSweet] is a positive
    integer. *)
Lemma valid_amount_integer (q : Q) :
  invalidQuantity q = false ->
  1 <= Number.toZ q /\ (q == inject_Z (Number.toZ q))%Q.
Proof.
  destruct q as [n d].
  unfold invalidQuantity, Number.lt, Number.isInteger, Number.toZ, Qle_bool, Qeq.
  simpl. intros H.
  apply orb_false_elim in H as [Hlt Hint].
  apply negb_false_iff in Hlt, Hint.
  apply Z.leb_le in Hlt. apply Z.eqb_eq in Hint.
  pose proof (Z.div_mod n (Z.pos d) ltac:(lia)) as Hdm.
  rewrite Hint in Hdm.
  split; [|lia].
  apply Z.div_le_lower_bound; lia.
Qed.

Lemma not_positive_integer_invalid (q : Q) :
  (forall a : Z, 1 <= a -> ~ (q == inject_Z a)%Q) ->
  invalidQuantity q = true.
Proof.
  intros H. destruct (invalidQuantity q) eqn:E; [reflexivity|].
  destruct (valid_amount_integer q E) as [H1 H2].
  exfalso. exact (H _ H1 H2).
Qed.

(** ** Doubles that hold integers *)

Lemma exactLimit_value : Number.exactLimit = 9007199254740992.
Proof. reflexivity. Qed.

Lemma round_exact (z : Z) : Z.abs z <= Number.exactLimit -> Number.round z = z.
Proof.
  intros H. unfold Number.round.
  destruct (Z.leb_spec (Z.abs z) Number.exactLimit); [reflexivity | lia].
Qed.

(** Beyond the exact range, a positive integer is rounded to one of the two
    multiples of its spacing that surround it. *)
Lemma round_large (z : Z) :
  Number.exactLimit < z ->
  let ulp := 2 ^ (Z.log2 z - 52) in
  0 < ulp
  /\ (Number.round z = z / ulp * ulp \/ Number.round z = (z / ulp + 1) * ulp)
  /\ (z mod ulp = 0 -> Number.round z = z).
Proof.
  intros Hz. cbv zeta.
  assert (Hpos : 0 < z) by (rewrite exactLimit_value in Hz; lia).
  assert (Hu : 0 < 2 ^ (Z.log2 z - 52)).
  { apply Z.pow_pos_nonneg; [lia|].
    assert (53 <= Z.log2 z); [|lia].
    rewrite <- (Z.log2_pow2 53) by lia. apply Z.log2_le_mono.
    change (2 ^ 53) with Number.exactLimit. lia. }
  split; [exact Hu|].
  unfold Number.round.
  destruct (Z.leb_spec (Z.abs z) Number.exactLimit); [lia|].
  rewrite Z.abs_eq, Z.sgn_pos by lia.
  set (u := 2 ^ (Z.log2 z - 52)) in *.
  unfold Number.halfEven. split.
  - destruct (2 * (z mod u) <? u); [left; lia|].
    destruct (u <? 2 * (z mod u)); [right; lia|].
    destruct (Z.even (z / u)); [left | right]; lia.
  - intros Hr. rewrite Hr.
    destruct (Z.ltb_spec (2 * 0) u); [|lia].
    pose proof (Z.div_mod z u ltac:(lia)). lia.
Qed.

Lemma round_nonneg (z : Z) : 0 <= z -> 0 <= Number.round z.
Proof.
  intros Hz.
  destruct (Z.le_gt_cases z Number.exactLimit) as [Hle|Hgt].
  - rewrite round_exact by lia. exact Hz.
  - destruct (round_large z Hgt) as (Hu & [-> | ->] & _).
    + apply Z.mul_nonneg_nonneg; [apply Z.div_pos|]; lia.
    + apply Z.mul_nonneg_nonneg; [|lia].
      pose proof (Z.div_pos z (2 ^ (Z.log2 z - 52)) Hz Hu). lia.
Qed.

(** Rounding does not step over a double. *)
Lemma round_le (z x : Z) :
  0 <= z <= x -> Number.isDouble x -> Number.round z <= x.
Proof.
  unfold Number.isDouble. intros [Hz Hzx] Hx.
  destruct (Z.le_gt_cases z Number.exactLimit) as [Hle|Hgt].
  { rewrite round_exact by lia. exact Hzx. }
  assert (Hgx : Number.exactLimit < x) by lia.
  destruct (round_large z Hgt) as (Hu & Hcases & Hexact).
  destruct (round_large x Hgx) as (Hux & Hxcases & _).
  set (u := 2 ^ (Z.log2 z - 52)) in *.
  set (ux := 2 ^ (Z.log2 x - 52)) in *.
  assert (H53 : 53 <= Z.log2 z).
  { rewrite <- (Z.log2_pow2 53) by lia. apply Z.log2_le_mono.
    change (2 ^ 53) with Number.exactLimit. lia. }
  assert (Hlog : Z.log2 z <= Z.log2 x) by (apply Z.log2_le_mono; lia).
  assert (Hdiv : exists k, ux = k * u /\ 0 < k).
  { exists (2 ^ (Z.log2 x - Z.log2 z)). split.
    - unfold ux, u. rewrite <- Z.pow_add_r by lia. f_equal. lia.
    - apply Z.pow_pos_nonneg; lia. }
  destruct Hdiv as (k & Hk & Hkpos).
  assert (Hmult : exists n, x = n * u).
  { rewrite Hx in Hxcases. destruct Hxcases as [H|H].
    - exists (x / ux * k). rewrite H at 1. rewrite Hk. ring.
    - exists ((x / ux + 1) * k). rewrite H at 1. rewrite Hk. ring. }
  destruct Hmult as (n & Hn).
  pose proof (Z.div_mod z u ltac:(lia)) as Hdm.
  pose proof (Z.mod_pos_bound z u Hu) as Hr.
  destruct (Z.eq_dec (z mod u) 0) as [H0|Hne].
  { rewrite (Hexact H0). exact Hzx. }
  assert (Hlt : z / u < n) by nia.
  destruct Hcases as [-> | ->]; nia.
Qed.

(** The result of rounding is a double. *)
Lemma round_isDouble (z : Z) : 0 <= z -> Number.isDouble (Number.round z).
Proof.
  intros Hz. unfold Number.isDouble.
  destruct (Z.le_gt_cases z Number.exactLimit) as [Hle|Hgt].
  { rewrite (round_exact z) by lia. apply round_exact. lia. }
  destruct (round_large z Hgt) as (Hu & Hcases & _).
  assert (Hpos : 0 < z) by (rewrite exactLimit_value in Hgt; lia).
  assert (H53 : 53 <= Z.log2 z).
  { rewrite <- (Z.log2_pow2 53) by lia. apply Z.log2_le_mono.
    change (2 ^ 53) with Number.exactLimit. lia. }
  destruct (Z.log2_spec z Hpos) as [Hlo Hhi].
  set (k := Z.log2 z) in *.
  set (u := 2 ^ (k - 52)) in *.
  assert (Hk : 2 ^ k = 2 ^ 52 * u).
  { unfold u. rewrite <- Z.pow_add_r by lia. f_equal. lia. }
  assert (Hk1 : 2 ^ Z.succ k = 2 ^ 53 * u).
  { unfold u. rewrite <- Z.pow_add_r by lia. f_equal. lia. }
  assert (Hm : 2 ^ 52 <= z / u < 2 ^ 53).
  { split.
    - apply Z.div_le_lower_bound; lia.
    - apply Z.div_lt_upper_bound; lia. }
  set (r := Number.round z) in *.
  assert (Hr : exists m', r = m' * u /\ 2 ^ 52 <= m' <= 2 ^ 53).
  { destruct Hcases as [-> | ->]; eexists; (split; [reflexivity|]); lia. }
  destruct Hr as (m' & Hr & Hm').
  assert (Hu2 : 2 <= u).
  { unfold u. replace (k - 52) with (1 + (k - 53)) by lia.
    rewrite Z.pow_add_r by lia.
    assert (0 < 2 ^ (k - 53)) by (apply Z.pow_pos_nonneg; lia). lia. }
  assert (Hbig : Number.exactLimit <= r).
  { rewrite exactLimit_value. rewrite Hr. change (2 ^ 52) with 4503599627370496 in Hm'. nia. }
  destruct (Z.eq_dec r Number.exactLimit) as [Heq|Hne].
  { rewrite Heq. reflexivity. }
  assert (Hgr : Number.exactLimit < r) by lia.
  destruct (round_large r Hgr) as (_ & _ & Hexact).
  apply Hexact.
  destruct (Z.eq_dec m' (2 ^ 53)) as [Htop|Hlow].
  - assert (Hlog : Z.log2 r = Z.succ k).
    { apply Z.log2_unique; [lia|]. rewrite Hr, Htop, Hk1.
      split; [lia|]. rewrite Z.pow_succ_r by lia. lia. }
    rewrite Hlog. replace (Z.succ k - 52) with (1 + (k - 52)) by lia.
    rewrite Z.pow_add_r by lia. fold u.
    rewrite Hr, Htop. change (2 ^ 53) with (2 ^ 52 * 2 ^ 1).
    replace (2 ^ 52 * 2 ^ 1 * u) with (2 ^ 52 * (2 ^ 1 * u)) by ring.
    apply Z.mod_mul. lia.
  - assert (Hlog : Z.log2 r = k).
    { apply Z.log2_unique; [lia|]. rewrite Hr, Hk, Hk1.
      split; nia. }
    rewrite Hlog. fold u. rewrite Hr. apply Z.mod_mul. lia.
Qed.

Lemma sub_exact (x y : Z) :
  0 <= x - y <= Number.exactLimit -> Number.sub x y = x - y.
Proof. intros H. unfold Number.sub. apply round_exact. lia. Qed.

Lemma sub_nonneg (x y : Z) : y <= x -> 0 <= Number.sub x y.
Proof. intros H. unfold Number.sub. apply round_nonneg. lia. Qed.

Lemma sub_le (x y : Z) :
  0 <= y <= x -> Number.isDouble x -> Number.sub x y <= x.
Proof. intros H Hx. unfold Number.sub. apply round_le; [lia | exact Hx]. Qed.

Lemma sub_isDouble (x y : Z) : y <= x -> Number.isDouble (Number.sub x y).
Proof. intros H. unfold Number.sub. apply round_isDouble. lia. Qed.


Example round_examples :
  Number.sub (2 ^ 53 + 2) 1 = 2 ^ 53
  /\ Number.sub (2 ^ 53) 1 = 2 ^ 53 - 1
  /\ Number.sub (2 ^ 53 + 4) 1 = 2 ^ 53 + 4
  /\ Number.round (2 ^ 53 + 1) = 2 ^ 53
  /\ Number.round (2 ^ 53 + 3) = 2 ^ 53 + 4
  /\ Number.round (2 ^ 54 + 2) = 2 ^ 54
  /\ Number.round (2 ^ 54 + 6) = 2 ^ 54 + 8
  /\ Number.round (- (2 ^ 53 + 3)) = - (2 ^ 53 + 4).
Proof. vm_compute. repeat split. Qed.

(** The subtraction of numbers on values whose difference is not an
    integer: 10 less the double nearest to 0.1 is the double nearest to 9.9;
    1 less 2^-60 is 1; 2^52 + 1 less 0.5 is 2^52. *)
Example minus_examples :
  (Number.minus (Number.ofZ 10) (3602879701896397 # 36028797018963968)
   == 5573204538870989 # 562949953421312)%Q
  /\ (Number.minus (Number.ofZ 1) (1 # 1152921504606846976) == Number.ofZ 1)%Q
  /\ (Number.minus (Number.ofZ (2 ^ 52 + 1)) (1 # 2) == Number.ofZ (2 ^ 52))%Q
  /\ (Number.minus (Number.ofZ 3) (1 # 2) == 5 # 2)%Q.
Proof. vm_compute. repeat split; reflexivity. Qed.

(** ** The handler steps and the uninterrupted run agree *)

Lemma purchaseSweet_steps (e1 e2 : Env) (id : string) (body : Body) (st : Store) :
  purchaseSweet e1 e2 id body st =
  let '(h1, st1, log1) := handler_step e1 (Requested id body) st in
  let '(h2, st2, log2) := handler_step e2 h1 st1 in
  (default (fail 500 "Error processing purchase") (response h2), st2, (log1 ++ log2)%list).
Proof.
  unfold purchaseSweet, handler_step.
  destruct (requestedQuantity body) as [q|]; [|reflexivity].
  destruct (invalidQuantity q); [reflexivity|].
  destruct (Sweet_findOneAndUpdate e1 id _ st) as [[err| |sweet] st1];
    [reflexivity| |].
  - destruct (Sweet_findById e2 id st1); reflexivity.
  - destruct (Document_save e2 _ st1) as [[err|saved] st2]; reflexivity.
Qed.

(** A handler that has responded makes no further store call. *)
Lemma responded_is_final (e : Env) (r : Response) (st : Store) :
  handler_step e (Responded r) st = (Responded r, st, []).
Proof. reflexivity. Qed.

(** Two steps bring every handler to its response. *)
Lemma handler_responds_in_two_steps (e1 e2 : Env) (id : string) (body : Body)
    (st st' : Store) :
  exists r, response (handler_step e2 (handler_step e1 (Requested id body) st).1.1 st').1.1
            = Some r.
Proof.
  unfold handler_step at 2.
  destruct (requestedQuantity body) as [q|]; [|eexists; reflexivity].
  destruct (invalidQuantity q); [eexists; reflexivity|].
  destruct (Sweet_findOneAndUpdate e1 id _ st) as [[err| |sweet] st1]; simpl.
  - eexists; reflexivity.
  - destruct (Sweet_findById e2 id st'); eexists; reflexivity.
  - destruct (Document_save e2 _ st') as [[err|saved] st2]; eexists; reflexivity.
Qed.

(** ** A purchase that runs without interruption *)

Lemma requestedQuantity_ofZ (a : Z) :
  1 <= a ->
  requestedQuantity (Object (Some (Number.ofZ a))) = Some (Number.ofZ a)
  /\ invalidQuantity (Number.ofZ a) = false
  /\ Number.toZ (Number.ofZ a) = a.
Proof.
  intros Ha. split; [reflexivity|].
  split; [apply positive_amount_valid; assumption | apply toZ_ofZ].
Qed.

(** The handler with a body that asks for the positive integer [a]. *)
Ltac asks_for a Ha :=
  change (requestedQuantity (Object (Some (Number.ofZ a)))) with (Some (Number.ofZ a));
  cbv beta iota;
  rewrite (positive_amount_valid a Ha), (toZ_ofZ a).

(** The conditional decrement on a document that has enough stock. *)
Lemma findOneAndUpdate_hit (e : Env) (id : string) (oid : ObjectId) (a : Z)
    (st : Store) (s : Sweet) :
  castObjectId id = Some oid -> up e = true ->
  st !! oid = Some s -> a <= quantity s ->
  Sweet_findOneAndUpdate e id a st =
  (Found (hydrate oid (set_updatedAt (now e)
                         (set_quantity (Number.sub (quantity s) a) s))),
   <[oid := set_updatedAt (now e) (set_quantity (Number.sub (quantity s) a) s)]> st).
Proof.
  intros Hc Hu Hs Ha. unfold Sweet_findOneAndUpdate.
  rewrite Hc, Hu, Hs.
  destruct (Z.leb_spec a (quantity s)); [reflexivity | lia].
Qed.

(** The conditional decrement that matches no document. *)
Lemma findOneAndUpdate_miss (e : Env) (id : string) (oid : ObjectId) (a : Z)
    (st : Store) :
  castObjectId id = Some oid -> up e = true ->
  (forall s, st !! oid = Some s -> quantity s < a) ->
  Sweet_findOneAndUpdate e id a st = (Null, st).
Proof.
  intros Hc Hu Hs. unfold Sweet_findOneAndUpdate.
  rewrite Hc, Hu.
  destruct (st !! oid) as [s|] eqn:E; [|reflexivity].
  specialize (Hs s eq_refl).
  destruct (Z.leb_spec a (quantity s)); [lia | reflexivity].
Qed.

(** Saving the document that the decrement returned, while it is still the
    stored one: the stored document gets the recomputed flag. *)
Lemma save_after_decrement (e : Env) (oid : ObjectId) (s : Sweet) (st : Store) :
  up e = true -> st !! oid = Some s ->
  exists item,
    Document_save e (assign_inStock (0 <? quantity s) (hydrate oid s)) st
      = (inr (hydrate oid item), <[oid := item]> st)
    /\ quantity item = quantity s
    /\ inStock item = (0 <? quantity s)
    /\ name item = name s /\ category item = category s
    /\ price item = price s /\ description item = description s
    /\ createdAt item = createdAt s.
Proof.
  intros Hu Hs. unfold Document_save, preSave, assign_inStock, hydrate.
  rewrite Hu. cbn.
  destruct (Bool.eqb (0 <? quantity s) (inStock s)) eqn:E; cbn.
  - rewrite E; cbn. rewrite Hs. exists s.
    apply Bool.eqb_prop in E.
    rewrite insert_id by assumption. auto 10.
  - rewrite Bool.eqb_reflx; cbn. rewrite Hs.
    eexists. split; [reflexivity|]. cbn. auto 10.
Qed.

(** C3, as the code has it: for an item with quantity Q and a positive
    integer amount a with Q >= a, the purchase succeeds and returns the item
    with the double nearest to Q - a as its quantity and inStock equal to
    (that quantity > 0), and the store then holds that item.  As long as Q
    is at most 2^53, the quantity is Q - a itself and inStock is
    (Q - a > 0). *)
Theorem purchase_sufficient_stock (e1 e2 : Env) (id : string) (oid : ObjectId)
    (st : Store) (s : Sweet) (a : Z) :
  castObjectId id = Some oid -> st !! oid = Some s ->
  1 <= a -> a <= quantity s ->
  up e1 = true -> up e2 = true ->
  exists (item : Sweet) (st' : Store) (log : list Event),
    purchaseSweet e1 e2 id (Object (Some (Number.ofZ a))) st
      = (mkResponse 200 true (Some "Purchase successful") (Some (oid, item)),
         st', log)
    /\ quantity item = Number.sub (quantity s) a
    /\ inStock item = (0 <? quantity item)
    /\ st' !! oid = Some item
    /\ (quantity s <= 2 ^ 53 ->
        quantity item = quantity s - a /\ inStock item = (0 <? quantity s - a)).
Proof.
  intros Hc Hs Ha Hq Hu1 Hu2.
  unfold purchaseSweet. asks_for a Ha.
  rewrite (findOneAndUpdate_hit e1 id oid a st s) by assumption.
  set (s1 := set_updatedAt (now e1) (set_quantity (Number.sub (quantity s) a) s)).
  destruct (save_after_decrement e2 oid s1 (<[oid := s1]> st) Hu2)
    as (item & Hsave & Hqi & Hii & _).
  { apply lookup_insert_eq. }
  change (paths (hydrate oid s1)) with s1.
  rewrite Hsave.
  exists item, (<[oid := item]> (<[oid := s1]> st)). eexists.
  split; [reflexivity|].
  split; [exact Hqi|].
  split; [rewrite Hii, Hqi; reflexivity|].
  split; [apply lookup_insert_eq|].
  intros Hbound. change (2 ^ 53) with Number.exactLimit in Hbound.
  rewrite Hii, Hqi. change (quantity s1) with (Number.sub (quantity s) a).
  rewrite sub_exact by lia. split; reflexivity.
Qed.

Lemma purchase_sufficient_stock_witness :
  exists (item : Sweet) (st' : Store) (log : list Event),
    purchaseSweet (online 1) (online 2) sampleId (Object (Some (Number.ofZ 1))) (shelf 1)
      = (mkResponse 200 true (Some "Purchase successful") (Some (sampleOid, item)),
         st', log)
    /\ quantity item = Number.sub (quantity (sample 1 true)) 1
    /\ inStock item = (0 <? quantity item)
    /\ st' !! sampleOid = Some item
    /\ (quantity (sample 1 true) <= 2 ^ 53 ->
        quantity item = quantity (sample 1 true) - 1
        /\ inStock item = (0 <? quantity (sample 1 true) - 1)).
Proof.
  apply (purchase_sufficient_stock (online 1) (online 2) sampleId sampleOid
           (shelf 1) (sample 1 true) 1);
    first [reflexivity | lia].
Defined.

(** The claim of C3 fails beyond 2^53, where the doubles are two apart: one
    unit bought from an item with quantity 2^53 + 2 leaves 2^53, not
    2^53 + 1. *)
Lemma purchase_rounds_large_quantity :
  let '(r, st', _) :=
    purchaseSweet (online 1) (online 2) sampleId (Object (Some 1%Q))
                  (shelf (2 ^ 53 + 2)) in
  status r = 200
  /\ (quantity <$> (snd <$> data r)) = Some (2 ^ 53)
  /\ (quantity <$> st' !! sampleOid) = Some (2 ^ 53)
  /\ 2 ^ 53 <> 2 ^ 53 + 2 - 1.
Proof.
  vm_compute. repeat split; try reflexivity.
  intros H. discriminate H.
Qed.

(** Scenarios A and B of the specification. *)
Example scenario_A :
  let '(r, st', _) :=
    purchaseSweet (online 1) (online 2) sampleId (Object (Some 3%Q)) (shelf 10) in
  status r = 200
  /\ (quantity <$> (snd <$> data r)) = Some 7
  /\ (inStock <$> (snd <$> data r)) = Some true
  /\ (quantity <$> st' !! sampleOid) = Some 7.
Proof. vm_compute. auto. Qed.

Example scenario_B :
  let '(r, st', _) :=
    purchaseSweet (online 1) (online 2) sampleId (Object (Some 1%Q)) (shelf 1) in
  status r = 200
  /\ (quantity <$> (snd <$> data r)) = Some 0
  /\ (inStock <$> (snd <$> data r)) = Some false
  /\ (inStock <$> st' !! sampleOid) = Some false.
Proof. vm_compute. auto. Qed.

(** C5: an amount that is not a positive integer is rejected with the
    invalid-amount response before any store call: the log of store calls
    is empty and the store is unchanged, whatever the id and whatever the
    state of the database. *)
Theorem purchase_invalid_amount (e1 e2 : Env) (id : string) (q : Q) (st : Store) :
  (forall a : Z, 1 <= a -> ~ (q == inject_Z a)%Q) ->
  purchaseSweet e1 e2 id (Object (Some q)) st
  = (fail 400 "Quantity must be a positive integer", st, []).
Proof.
  intros H. unfold purchaseSweet.
  change (requestedQuantity (Object (Some q))) with (Some q). cbv beta iota.
  rewrite (not_positive_integer_invalid q H). reflexivity.
Qed.

Lemma purchase_invalid_amount_witness :
  purchaseSweet (online 1) (offline 2) "no-such-id" (Object (Some (1 # 2)%Q)) (shelf 3)
  = (fail 400 "Quantity must be a positive integer", shelf 3, []).
Proof.
  apply (purchase_invalid_amount (online 1) (offline 2) "no-such-id" (1 # 2)%Q).
  intros a Ha. unfold Qeq; simpl. lia.
Defined.

(** Scenario F of the specification. *)
Example scenario_F :
  purchaseSweet (online 1) (online 2) sampleId (Object (Some (-1)%Q)) (shelf 10)
  = (fail 400 "Quantity must be a positive integer", shelf 10, [])
  /\ purchaseSweet (online 1) (online 2) sampleId (Object (Some 0%Q)) (shelf 10)
     = (fail 400 "Quantity must be a positive integer", shelf 10, []).
Proof. split; reflexivity. Qed.

(** C6: when the conditional decrement matches no record, the purchase
    makes exactly one follow-up lookup and then responds: not found when no
    item has the id, insufficient quantity with the quantity read by that
    lookup when the item exists. *)
Theorem purchase_miss_one_lookup (e1 e2 : Env) (id : string) (oid : ObjectId)
    (a : Z) (st : Store) :
  castObjectId id = Some oid -> 1 <= a ->
  up e1 = true -> up e2 = true ->
  (forall s, st !! oid = Some s -> quantity s < a) ->
  purchaseSweet e1 e2 id (Object (Some (Number.ofZ a))) st
  = (match st !! oid with
     | None => fail 404 "Sweet not found"
     | Some s => fail 400 ("Insufficient quantity. Only "
                           ++ showZ (quantity s) ++ " available.")
     end,
     st,
     [mkEvent (FindOneAndUpdate id a) Null;
      mkEvent (FindById id) match st !! oid with
                            | None => Null
                            | Some s => Found (hydrate oid s)
                            end]).
Proof.
  intros Hc Ha Hu1 Hu2 Hmiss.
  unfold purchaseSweet. asks_for a Ha.
  rewrite (findOneAndUpdate_miss e1 id oid a st) by assumption.
  unfold Sweet_findById. rewrite Hc, Hu2.
  destruct (st !! oid) as [s|]; reflexivity.
Qed.

Lemma purchase_miss_one_lookup_witness :
  purchaseSweet (online 1) (online 2) sampleId (Object (Some (Number.ofZ 10))) (shelf 5)
  = (match shelf 5 !! sampleOid with
     | None => fail 404 "Sweet not found"
     | Some s => fail 400 ("Insufficient quantity. Only "
                           ++ showZ (quantity s) ++ " available.")
     end,
     shelf 5,
     [mkEvent (FindOneAndUpdate sampleId 10) Null;
      mkEvent (FindById sampleId) match shelf 5 !! sampleOid with
                                  | None => Null
                                  | Some s => Found (hydrate sampleOid s)
                                  end]).
Proof.
  apply (purchase_miss_one_lookup (online 1) (online 2) sampleId sampleOid 10
           (shelf 5)); try reflexivity; try lia.
  intros s Hs. vm_compute in Hs. injection Hs as <-. simpl. lia.
Defined.

(** The follow-up lookup of a handler that runs among others reports what
    the store holds when the lookup is made, and ends the handler. *)
Lemma lookup_reports_current_quantity (e : Env) (id : string) (oid : ObjectId)
    (st : Store) :
  castObjectId id = Some oid -> up e = true ->
  handler_step e (AwaitLookup id) st
  = (Responded match st !! oid with
               | None => fail 404 "Sweet not found"
               | Some s => fail 400 ("Insufficient quantity. Only "
                                     ++ showZ (quantity s) ++ " available.")
               end,
     st,
     [mkEvent (FindById id) match st !! oid with
                            | None => Null
                            | Some s => Found (hydrate oid s)
                            end]).
Proof.
  intros Hc Hu. unfold handler_step, Sweet_findById. rewrite Hc, Hu.
  destruct (st !! oid); reflexivity.
Qed.

(** Scenarios C and D of the specification. *)
Example scenario_C :
  let '(r, st', _) :=
    purchaseSweet (online 1) (online 2) sampleId (Object (Some 10%Q)) (shelf 5) in
  r = fail 400 "Insufficient quantity. Only 5 available." /\ st' = shelf 5.
Proof. vm_compute. auto. Qed.

Example scenario_D :
  let '(r, st', _) :=
    purchaseSweet (online 1) (online 2) sampleId (Object (Some 1%Q)) ∅ in
  r = fail 404 "Sweet not found" /\ st' = ∅.
Proof. vm_compute. auto. Qed.







Example default_amount_takes_one :
  let '(r, st', _) :=
    purchaseSweet (online 1) (online 2) sampleId (Object None) (shelf 10) in
  status r = 200 /\ (quantity <$> st' !! sampleOid) = Some 9.
Proof. vm_compute. auto. Qed.

(** ** Identifiers that do not cast *)

Lemma findById_malformed (e : Env) (id : string) (st : Store) :
  castObjectId id = None -> Sweet_findById e id st = Threw CastError.
Proof. intros Hc. unfold Sweet_findById. rewrite Hc. reflexivity. Qed.

Lemma findOneAndUpdate_malformed (e : Env) (id : string) (a : Z) (st : Store) :
  castObjectId id = None ->
  Sweet_findOneAndUpdate e id a st = (Threw CastError, st).
Proof. intros Hc. unfold Sweet_findOneAndUpdate. rewrite Hc. reflexivity. Qed.

(** C9: for an id that is not a well-formed object identifier, the lookup
    raises a cast failure, and both purchase (reached with a valid amount)
    and getSweetById answer not found and leave the store unchanged; this
    is the answer they give for a well-formed id that matches no item, and
    for every body the purchase answers the two kinds of id alike. *)
Theorem malformed_id_not_found (e1 e2 : Env) (id : string) (a : Z) (st : Store) :
  castObjectId id = None -> 1 <= a ->
  purchaseSweet e1 e2 id (Object (Some (Number.ofZ a))) st
  = (fail 404 "Sweet not found", st,
     [mkEvent (FindOneAndUpdate id a) (Threw CastError)])
  /\ getSweetById e1 id st
     = (fail 404 "Sweet not found", st, [mkEvent (FindById id) (Threw CastError)])
  /\ forall (id' : string) (oid' : ObjectId) (f1 f2 : Env),
       castObjectId id' = Some oid' -> st !! oid' = None ->
       up f1 = true -> up f2 = true ->
       (purchaseSweet f1 f2 id' (Object (Some (Number.ofZ a))) st).1
       = (fail 404 "Sweet not found", st)
       /\ (getSweetById f1 id' st).1 = (fail 404 "Sweet not found", st)
       /\ forall body : Body,
            (purchaseSweet f1 f2 id' body st).1 = (purchaseSweet e1 e2 id body st).1.
Proof.
  intros Hc Ha.
  destruct (requestedQuantity_ofZ a Ha) as (Hr & Hv & _).
  assert (Hbad : forall body,
             (purchaseSweet e1 e2 id body st).1
             = (match requestedQuantity body with
                | None => fail 500 "Error processing purchase"
                | Some q => if invalidQuantity q
                            then fail 400 "Quantity must be a positive integer"
                            else fail 404 "Sweet not found"
                end, st)).
  { intros body. unfold purchaseSweet.
    destruct (requestedQuantity body) as [q|]; [|reflexivity].
    destruct (invalidQuantity q); [reflexivity|].
    rewrite findOneAndUpdate_malformed by assumption. reflexivity. }
  split; [|split].
  - unfold purchaseSweet. asks_for a Ha.
    rewrite findOneAndUpdate_malformed by assumption. reflexivity.
  - unfold getSweetById. rewrite findById_malformed by assumption. reflexivity.
  - intros id' oid' f1 f2 Hc' Hnone Hu1 Hu2.
    assert (Hmiss : forall s, st !! oid' = Some s -> False) by (intros s; congruence).
    assert (Habsent : forall body,
               (purchaseSweet f1 f2 id' body st).1
               = (match requestedQuantity body with
                  | None => fail 500 "Error processing purchase"
                  | Some q => if invalidQuantity q
                              then fail 400 "Quantity must be a positive integer"
                              else fail 404 "Sweet not found"
                  end, st)).
    { intros body. unfold purchaseSweet.
      destruct (requestedQuantity body) as [q|]; [|reflexivity].
      destruct (invalidQuantity q); [reflexivity|].
      rewrite (findOneAndUpdate_miss f1 id' oid') by
          (try assumption; intros s Hs; destruct (Hmiss s Hs)).
      unfold Sweet_findById. rewrite Hc', Hu2, Hnone. reflexivity. }
    split; [|split].
    + rewrite Habsent, Hr, Hv. reflexivity.
    + unfold getSweetById, Sweet_findById. rewrite Hc', Hu1, Hnone. reflexivity.
    + intros body. rewrite Habsent, Hbad. reflexivity.
Qed.

Lemma malformed_id_not_found_witness :
  purchaseSweet (online 1) (online 2) "not-an-id" (Object (Some (Number.ofZ 2))) (shelf 5)
  = (fail 404 "Sweet not found", shelf 5,
     [mkEvent (FindOneAndUpdate "not-an-id" 2) (Threw CastError)])
  /\ getSweetById (online 1) "not-an-id" (shelf 5)
     = (fail 404 "Sweet not found", shelf 5,
        [mkEvent (FindById "not-an-id") (Threw CastError)]).
Proof.
  destruct (malformed_id_not_found (online 1) (online 2) "not-an-id" 2 (shelf 5))
    as (Hp & Hg & _); [reflexivity | lia |].
  split; assumption.
Defined.

(** ** Failed purchases *)




(** ** Administrative updates *)

(** What the [$set] of an update leaves alone. *)
Lemma applySet_frame (i : SweetInput) (t : Z) (s : Sweet) :
  (in_name i = None -> name (applySet i t s) = name s)
  /\ (in_category i = None -> category (applySet i t s) = category s)
  /\ (in_price i = None -> price (applySet i t s) = price s)
  /\ (in_quantity i = None -> quantity (applySet i t s) = quantity s)
  /\ (in_description i = None -> description (applySet i t s) = description s)
  /\ inStock (applySet i t s) = inStock s
  /\ createdAt (applySet i t s) = createdAt s.
Proof.
  destruct i as [[n|] [c|] [p|] [q|] [d|]]; cbn;
    repeat split; intros; first [reflexivity | discriminate].
Qed.

(** What the [$set] of an update writes. *)
Lemma applySet_written (i : SweetInput) (t : Z) (s : Sweet) :
  (forall v, in_name i = Some v -> name (applySet i t s) = v)
  /\ (forall v, in_category i = Some v -> category (applySet i t s) = v)
  /\ (forall v, in_price i = Some v -> price (applySet i t s) = v)
  /\ (forall v, in_quantity i = Some v -> quantity (applySet i t s) = Number.toZ v)
  /\ (forall v, in_description i = Some v -> description (applySet i t s) = Some v)
  /\ updatedAt (applySet i t s) = t.
Proof.
  destruct i as [[n|] [c|] [p|] [q|] [d|]]; cbn;
    repeat split; intros; first [reflexivity | congruence].
Qed.

Lemma castInput_undefined (i : SweetInput) :
  (in_name i = None -> in_name (castInput i) = None)
  /\ (in_category i = None -> in_category (castInput i) = None)
  /\ (in_price i = None -> in_price (castInput i) = None)
  /\ (in_quantity i = None -> in_quantity (castInput i) = None)
  /\ (in_description i = None -> in_description (castInput i) = None).
Proof.
  unfold castInput; cbn. repeat split; intros ->; reflexivity.
Qed.

(** The store after [findByIdAndUpdate]: either unchanged, or the document
    under the id replaced by the result of the [$set]. *)
Lemma findByIdAndUpdate_store (e : Env) (id : string) (i : SweetInput)
    (st st' : Store) (r : Result) :
  Sweet_findByIdAndUpdate e id i st = (r, st') ->
  (st' = st /\ forall d, r <> Found d)
  \/ exists oid s,
       castObjectId id = Some oid /\ st !! oid = Some s
       /\ r = Found (hydrate oid (applySet (castInput i) (now e) s))
       /\ st' = <[oid := applySet (castInput i) (now e) s]> st.
Proof.
  unfold Sweet_findByIdAndUpdate.
  destruct (castObjectId id) as [oid|];
    [|intros [= <- <-]; left; split; [reflexivity | discriminate]].
  destruct (Validate.update (castInput i));
    [|intros [= <- <-]; left; split; [reflexivity | discriminate]].
  destruct (up e);
    [|intros [= <- <-]; left; split; [reflexivity | discriminate]].
  destruct (st !! oid) as [s|] eqn:Hs;
    [|intros [= <- <-]; left; split; [reflexivity | discriminate]].
  intros [= <- <-]. right. exists oid, s. auto.
Qed.

(** C10, as the code has it: whatever subset of name, category, price,
    quantity and description an update request supplies, every stored
    document stays under its id, and each of its fields that the request
    does not supply keeps its value, createdAt and inStock included; the
    exception is updatedAt, which the update sets to the time it is made. *)
Theorem updateSweet_frame (e : Env) (id : string) (body : SweetInput)
    (st st' : Store) (r : Response) (log : list Event)
    (oid : ObjectId) (s : Sweet) :
  updateSweet e id body st = (r, st', log) ->
  st !! oid = Some s ->
  exists s',
    st' !! oid = Some s'
    /\ (in_name body = None -> name s' = name s)
    /\ (in_category body = None -> category s' = category s)
    /\ (in_price body = None -> price s' = price s)
    /\ (in_quantity body = None -> quantity s' = quantity s)
    /\ (in_description body = None -> description s' = description s)
    /\ inStock s' = inStock s
    /\ createdAt s' = createdAt s
    /\ (success r = true -> castObjectId id = Some oid -> data r = Some (oid, s')).
Proof.
  intros Hrun Hs.
  assert (Hsame : st' = st -> success r = false ->
                  exists s', st' !! oid = Some s'
    /\ (in_name body = None -> name s' = name s)
    /\ (in_category body = None -> category s' = category s)
    /\ (in_price body = None -> price s' = price s)
    /\ (in_quantity body = None -> quantity s' = quantity s)
    /\ (in_description body = None -> description s' = description s)
    /\ inStock s' = inStock s
    /\ createdAt s' = createdAt s
    /\ (success r = true -> castObjectId id = Some oid -> data r = Some (oid, s'))).
  { intros -> Hf. exists s. rewrite Hf. repeat split; auto; discriminate. }
  unfold updateSweet in Hrun.
  destruct (from_option _ false (in_price body));
    [injection Hrun as <- <- <-; apply Hsame; reflexivity|].
  destruct (from_option _ false (in_quantity body));
    [injection Hrun as <- <- <-; apply Hsame; reflexivity|].
  destruct (Sweet_findByIdAndUpdate e id body st) as [res st1] eqn:Hupd.
  apply findByIdAndUpdate_store in Hupd
    as [[-> Hnf] | (oid0 & s0 & Hc & Hs0 & -> & ->)].
  - destruct res as [[| | |]| |d]; injection Hrun as <- <- <-;
      try (apply Hsame; reflexivity).
    destruct (Hnf d eq_refl).
  - injection Hrun as <- <- <-.
    destruct (decide (oid0 = oid)) as [->|Hne].
    + assert (s0 = s) as -> by congruence.
      exists (applySet (castInput body) (now e) s).
      rewrite lookup_insert_eq.
      destruct (applySet_frame (castInput body) (now e) s)
        as (Hn & Hcat & Hp & Hq & Hd & Hi & Hcr).
      destruct (castInput_undefined body) as (Cn & Cc & Cp & Cq & Cd).
      repeat split; auto.
    + exists s. rewrite lookup_insert_ne by assumption.
      repeat split; auto. cbn. intros _ Hc'. congruence.
Qed.

Lemma updateSweet_frame_witness :
  exists s',
    <[sampleOid := set_updatedAt 9 (set_name "Fudge" (sample 5 true))]> (shelf 5)
      !! sampleOid = Some s'
    /\ (in_name (mkInput (Some "Fudge") None None None None) = None ->
        name s' = name (sample 5 true))
    /\ (in_category (mkInput (Some "Fudge") None None None None) = None ->
        category s' = category (sample 5 true))
    /\ (in_price (mkInput (Some "Fudge") None None None None) = None ->
        price s' = price (sample 5 true))
    /\ (in_quantity (mkInput (Some "Fudge") None None None None) = None ->
        quantity s' = quantity (sample 5 true))
    /\ (in_description (mkInput (Some "Fudge") None None None None) = None ->
        description s' = description (sample 5 true))
    /\ inStock s' = inStock (sample 5 true)
    /\ createdAt s' = createdAt (sample 5 true)
    /\ (success (mkResponse 200 true (Some "Sweet updated successfully")
                   (Some (sampleOid, set_updatedAt 9 (set_name "Fudge" (sample 5 true)))))
        = true ->
        castObjectId sampleId = Some sampleOid ->
        data (mkResponse 200 true (Some "Sweet updated successfully")
                (Some (sampleOid, set_updatedAt 9 (set_name "Fudge" (sample 5 true)))))
        = Some (sampleOid, s')).
Proof.
  apply (updateSweet_frame (online 9) sampleId
           (mkInput (Some "Fudge") None None None None) (shelf 5)
           (<[sampleOid := set_updatedAt 9 (set_name "Fudge" (sample 5 true))]> (shelf 5))
           (mkResponse 200 true (Some "Sweet updated successfully")
              (Some (sampleOid, set_updatedAt 9 (set_name "Fudge" (sample 5 true)))))
           [mkEvent (FindByIdAndUpdate sampleId (mkInput (Some "Fudge") None None None None))
              (Found (hydrate sampleOid (set_updatedAt 9 (set_name "Fudge" (sample 5 true)))))]
           sampleOid (sample 5 true)).
  - vm_compute. reflexivity.
  - reflexivity.
Defined.

(** The claim of C10 fails on updatedAt: an update that supplies only the
    name changes the stored updatedAt, a field the request did not supply. *)
Lemma updateSweet_touches_updatedAt :
  let '(r, st', _) :=
    updateSweet (online 9) sampleId (mkInput (Some "Fudge") None None None None)
                (shelf 5) in
  status r = 200
  /\ (updatedAt <$> shelf 5 !! sampleOid) = Some 0
  /\ (updatedAt <$> st' !! sampleOid) = Some 9
  /\ (updatedAt <$> st' !! sampleOid) <> (updatedAt <$> shelf 5 !! sampleOid).
Proof.
  vm_compute. repeat split; try reflexivity.
  intros H. discriminate H.
Qed.

(** C1 at an update that empties the stock: the item had quantity 5 and
    inStock true; after [updateSweet] with quantity 0 the call answers 200,
    and both the stored item and the returned one have quantity 0 with
    inStock still true. *)
Theorem updateSweet_zero_quantity_keeps_inStock :
  let '(r, st', _) :=
    updateSweet (online 1) sampleId (mkInput None None None (Some 0%Q) None)
                (shelf 5) in
  status r = 200
  /\ (quantity <$> st' !! sampleOid) = Some 0
  /\ (inStock <$> st' !! sampleOid) = Some true
  /\ (quantity <$> (snd <$> data r)) = Some 0
  /\ (inStock <$> (snd <$> data r)) = Some true.
Proof. vm_compute. repeat split; reflexivity. Qed.

(** ** Where inStock is recomputed *)

Lemma assign_inStock_spec (v : bool) (d : Document) :
  inStock (paths (assign_inStock v d)) = v
  /\ quantity (paths (assign_inStock v d)) = quantity (paths d)
  /\ _id (assign_inStock v d) = _id d.
Proof.
  unfold assign_inStock.
  destruct (Bool.eqb v (inStock (paths d))) eqn:E; cbn.
  - apply Bool.eqb_prop in E. auto.
  - auto.
Qed.

Lemma preSave_spec (d : Document) :
  inStock (paths (preSave d)) = (0 <? quantity (paths d))
  /\ quantity (paths (preSave d)) = quantity (paths d)
  /\ _id (preSave d) = _id d.
Proof. unfold preSave. apply assign_inStock_spec. Qed.

(** After [createSweet] the new item has inStock equal to (quantity > 0). *)
Lemma createSweet_inStock (e : Env) (newId : ObjectId) (body : SweetInput)
    (st st' : Store) (r : Response) (log : list Event) :
  createSweet e newId body st = (r, st', log) ->
  success r = true ->
  exists s,
    data r = Some (newId, s) /\ st' = <[newId := s]> st
    /\ inStock s = (0 <? quantity s).
Proof.
  unfold createSweet.
  destruct (_ || _); [intros [= <- <- <-]; discriminate|].
  destruct (from_option _ false (in_price body));
    [intros [= <- <- <-]; discriminate|].
  destruct (from_option _ false (in_quantity body));
    [intros [= <- <- <-]; discriminate|].
  unfold Sweet_create.
  destruct (Validate.document (castInput body));
    [|intros [= <- <- <-]; discriminate].
  destruct (up e); [|intros [= <- <- <-]; discriminate].
  destruct (st !! newId); [intros [= <- <- <-]; discriminate|].
  intros [= <- <- <-] _.
  eexists. split; [reflexivity|]. split; [reflexivity|].
  change (paths (hydrate newId ?x)) with x.
  match goal with
  | |- inStock (paths (preSave ?d)) = _ =>
      destruct (preSave_spec d) as (Hi & Hq & _); rewrite Hi, Hq; reflexivity
  end.
Qed.

(** After a purchase that answers with success, the returned item is the
    stored one and has inStock equal to (quantity > 0). *)
Lemma purchase_success_consistent (e1 e2 : Env) (id : string) (body : Body)
    (st st' : Store) (r : Response) (log : list Event) :
  purchaseSweet e1 e2 id body st = (r, st', log) ->
  success r = true ->
  exists oid item,
    castObjectId id = Some oid /\ data r = Some (oid, item)
    /\ st' !! oid = Some item
    /\ inStock item = (0 <? quantity item).
Proof.
  unfold purchaseSweet.
  destruct (requestedQuantity body) as [q|]; [|intros [= <- <- <-]; discriminate].
  destruct (invalidQuantity q); [intros [= <- <- <-]; discriminate|].
  set (a := Number.toZ q).
  unfold Sweet_findOneAndUpdate.
  destruct (castObjectId id) as [oid|]; [|intros [= <- <- <-]; discriminate].
  destruct (up e1); [|intros [= <- <- <-]; discriminate].
  destruct (st !! oid) as [s|] eqn:Hs.
  2:{ destruct (Sweet_findById e2 id st) as [[]| |d];
        intros [= <- <- <-]; discriminate. }
  destruct (a <=? quantity s).
  2:{ destruct (Sweet_findById e2 id st) as [[]| |d];
        intros [= <- <- <-]; discriminate. }
  set (s1 := set_updatedAt (now e1) (set_quantity (Number.sub (quantity s) a) s)).
  change (paths (hydrate oid s1)) with s1.
  destruct (up e2) eqn:Hu2.
  - destruct (save_after_decrement e2 oid s1 (<[oid := s1]> st) Hu2)
      as (item & Hsave & Hq & Hi & _); [apply lookup_insert_eq|].
    rewrite Hsave. intros [= <- <- <-] _.
    exists oid, item. repeat split.
    + apply lookup_insert_eq.
    + rewrite Hi, Hq. reflexivity.
  - unfold Document_save. rewrite Hu2. intros [= <- <- <-]; discriminate.
Qed.

(** An administrative update never writes inStock. *)
Lemma updateSweet_keeps_inStock (e : Env) (id : string) (body : SweetInput)
    (st st' : Store) (r : Response) (log : list Event) (oid : ObjectId) (s : Sweet) :
  updateSweet e id body st = (r, st', log) ->
  st !! oid = Some s ->
  inStock <$> st' !! oid = Some (inStock s).
Proof.
  unfold updateSweet.
  destruct (from_option _ false (in_price body));
    [intros [= <- <- <-] ->; reflexivity|].
  destruct (from_option _ false (in_quantity body));
    [intros [= <- <- <-] ->; reflexivity|].
  destruct (Sweet_findByIdAndUpdate e id body st) as [res st1] eqn:Hupd.
  apply findByIdAndUpdate_store in Hupd
    as [[-> Hnf] | (oid0 & s0 & Hc & Hs0 & -> & ->)].
  - destruct res as [[| | |]| |d]; intros [= <- <- <-] ->; reflexivity.
  - intros [= <- <- <-] Hs.
    destruct (decide (oid0 = oid)) as [->|Hne].
    + rewrite lookup_insert_eq. cbv [fmap option_fmap option_map].
      assert (s0 = s) as -> by congruence.
      destruct (applySet_frame (castInput body) (now e) s) as (_&_&_&_&_&Hi&_).
      rewrite Hi. reflexivity.
    + rewrite lookup_insert_ne by assumption. rewrite Hs. reflexivity.
Qed.

(** ** Interleaved purchases *)

Lemma decrements_app (oid : ObjectId) (l1 l2 : list Event) :
  decrements oid (l1 ++ l2) = (decrements oid l1 ++ decrements oid l2)%list.
Proof.
  induction l1 as [|[c r] l1 IH]; [reflexivity|].
  cbn. destruct c; try exact IH.
  destruct r as [err| |d]; try exact IH.
  destruct (N.eqb (_id d) oid); cbn; rewrite IH; reflexivity.
Qed.

Lemma sumZ_app (l1 l2 : list Z) : sumZ (l1 ++ l2) = sumZ l1 + sumZ l2.
Proof.
  unfold sumZ.
  induction l1 as [|x l1 IH]; cbn [fold_right app]; [reflexivity|].
  rewrite IH. lia.
Qed.

(** The three things one step of a handler can do to the store: nothing; the
    conditional decrement of one document; the write of the recomputed
    inStock by [save]. *)
Lemma handler_step_cases (e : Env) (h h' : Handler) (st st' : Store)
    (evs : list Event) :
  handler_step e h st = (h', st', evs) ->
  (st' = st /\ (forall oid, decrements oid evs = [])
   /\ forall d, h' <> AwaitSave d)
  \/ (exists id oid s a,
        st !! oid = Some s /\ 1 <= a <= quantity s
        /\ st' = <[oid := set_updatedAt (now e)
                            (set_quantity (Number.sub (quantity s) a) s)]> st
        /\ h' = AwaitSave (hydrate oid (set_updatedAt (now e)
                                          (set_quantity (Number.sub (quantity s) a) s)))
        /\ evs = [mkEvent (FindOneAndUpdate id a)
                    (Found (hydrate oid (set_updatedAt (now e)
                                           (set_quantity (Number.sub (quantity s) a) s))))])
  \/ (exists d cur,
        h = AwaitSave d /\ st !! _id d = Some cur
        /\ st' = <[_id d := set_updatedAt (now e)
                              (set_inStock (0 <? quantity (paths d)) cur)]> st
        /\ (forall oid, decrements oid evs = [])
        /\ forall d', h' <> AwaitSave d').
Proof.
  destruct h as [id body|id|d|r]; cbn [handler_step].
  - destruct (requestedQuantity body) as [q|];
      [|intros [= <- <- <-]; left; repeat split; discriminate].
    destruct (invalidQuantity q) eqn:Hv.
    { intros [= <- <- <-]. left. repeat split; discriminate. }
    destruct (valid_amount_integer _ Hv) as [Ha _].
    set (a := Number.toZ q) in *.
    unfold Sweet_findOneAndUpdate.
    destruct (castObjectId id) as [oid|];
      [|intros [= <- <- <-]; left; repeat split; discriminate].
    destruct (up e); [|intros [= <- <- <-]; left; repeat split; discriminate].
    destruct (st !! oid) as [s|] eqn:Hs;
      [|intros [= <- <- <-]; left; repeat split; discriminate].
    destruct (Z.leb_spec a (quantity s));
      [|intros [= <- <- <-]; left; repeat split; discriminate].
    intros [= <- <- <-]. right; left.
    exists id, oid, s, a. repeat split; try assumption; lia.
  - destruct (Sweet_findById e id st) as [err| |d]; intros [= <- <- <-];
      left; repeat split; discriminate.
  - destruct (assign_inStock_spec (0 <? quantity (paths d)) d) as (Hi & Hq & Hid).
    set (d1 := assign_inStock (0 <? quantity (paths d)) d) in *.
    destruct (preSave_spec d1) as (Hi' & Hq' & Hid').
    unfold Document_save.
    set (d2 := preSave d1) in *.
    destruct (up e); [|intros [= <- <- <-]; left; repeat split; discriminate].
    destruct (st !! _id d2) as [cur|] eqn:Hcur;
      [|intros [= <- <- <-]; left; repeat split; discriminate].
    destruct (inStockModified d2);
      [|intros [= <- <- <-]; left; repeat split; discriminate].
    intros [= <- <- <-]. right; right.
    exists d, cur.
    rewrite Hid', Hid in Hcur. rewrite Hid', Hid, Hi', Hq.
    repeat split; try assumption; discriminate.
  - intros [= <- <- <-]. left. repeat split; discriminate.
Qed.

(** One step never makes a quantity negative; and from a document whose
    quantity is at most 2^53 it takes exactly the amounts that the log of
    the step records for it. *)
Lemma handler_step_quantity (e : Env) (h h' : Handler) (st st' : Store)
    (evs : list Event) (oid : ObjectId) (s : Sweet) :
  handler_step e h st = (h', st', evs) ->
  st !! oid = Some s -> 0 <= quantity s ->
  exists s',
    st' !! oid = Some s'
    /\ 0 <= quantity s'
    /\ (quantity s <= Number.exactLimit ->
        quantity s' = quantity s - sumZ (decrements oid evs)
        /\ quantity s' <= quantity s).
Proof.
  intros Hstep Hs Hq.
  apply handler_step_cases in Hstep
    as [(-> & Hd & _) | [(id & oid0 & s0 & a & Hs0 & Ha & -> & _ & ->)
                        | (d & cur & _ & Hcur & -> & Hd & _)]].
  - exists s. rewrite Hd. cbn. split; [assumption|]. lia.
  - cbn [decrements hydrate _id].
    destruct (N.eqb_spec oid0 oid) as [->|Hne].
    + assert (s0 = s) as -> by congruence.
      eexists. rewrite lookup_insert_eq. split; [reflexivity|]. cbn.
      split; [apply sub_nonneg; lia|].
      intros Hbound. rewrite sub_exact by lia. lia.
    + exists s. rewrite lookup_insert_ne by assumption.
      split; [assumption|]. cbn. lia.
  - rewrite Hd.
    destruct (decide (_id d = oid)) as [<-|Hne].
    + assert (cur = s) as -> by congruence.
      eexists. rewrite lookup_insert_eq. split; [reflexivity|]. cbn. lia.
    + exists s. rewrite lookup_insert_ne by assumption.
      split; [assumption|]. cbn. lia.
Qed.

Lemma system_step_quantity (sys : System) (t : Turn) (oid : ObjectId) (s : Sweet) :
  db sys !! oid = Some s -> 0 <= quantity s ->
  exists s',
    db (system_step sys t) !! oid = Some s'
    /\ 0 <= quantity s'
    /\ (quantity s <= Number.exactLimit ->
        quantity s' + sumZ (decrements oid (calls (system_step sys t)))
        = quantity s + sumZ (decrements oid (calls sys))
        /\ quantity s' <= quantity s).
Proof.
  intros Hs Hq. unfold system_step.
  destruct (handlers sys !! who t) as [h|]; [|exists s; split; [assumption|]; lia].
  destruct (handler_step (env t) h (db sys)) as [[h' st'] evs] eqn:Hstep.
  destruct (handler_step_quantity _ _ _ _ _ _ oid s Hstep Hs Hq)
    as (s' & Hs' & Hpos & Hexact).
  exists s'. cbn. rewrite decrements_app, sumZ_app.
  split; [assumption|]. split; [assumption|].
  intros Hbound. specialize (Hexact Hbound). lia.
Qed.

Lemma run_quantity (schedule : list Turn) :
  forall (sys : System) (oid : ObjectId) (s : Sweet),
    db sys !! oid = Some s -> 0 <= quantity s ->
    exists s',
      db (run schedule sys) !! oid = Some s'
      /\ 0 <= quantity s'
      /\ (quantity s <= Number.exactLimit ->
          quantity s' + sumZ (decrements oid (calls (run schedule sys)))
          = quantity s + sumZ (decrements oid (calls sys))
          /\ quantity s' <= quantity s).
Proof.
  induction schedule as [|t schedule IH]; intros sys oid s Hs Hq.
  - exists s. split; [assumption|]. cbn. lia.
  - destruct (system_step_quantity sys t oid s Hs Hq) as (s1 & Hs1 & Hq1 & Hsum1).
    destruct (IH (system_step sys t) oid s1 Hs1 Hq1) as (s' & Hs' & Hq' & Hsum).
    exists s'. change (run (t :: schedule) sys) with (run schedule (system_step sys t)).
    split; [assumption|]. split; [assumption|].
    intros Hbound. specialize (Hsum1 Hbound).
    assert (Hb1 : quantity s1 <= Number.exactLimit) by lia.
    specialize (Hsum Hb1). lia.
Qed.

(** C4, as the code has it: in every interleaving of purchase calls, at
    every point of the execution, the quantity of an item that started at
    Q >= 0 is never negative; and as long as Q is at most 2^53, it is Q
    minus the sum of the amounts that the conditional decrements took from
    it: no decrement is lost and none oversells. *)
Theorem concurrent_purchases_exact (st : Store) (reqs : list (string * Body))
    (schedule : list Turn) (oid : ObjectId) (s : Sweet) :
  st !! oid = Some s -> 0 <= quantity s ->
  exists s',
    db (run schedule (arrive st reqs)) !! oid = Some s'
    /\ 0 <= quantity s'
    /\ (quantity s <= 2 ^ 53 ->
        quantity s'
        = quantity s - sumZ (decrements oid (calls (run schedule (arrive st reqs))))
        /\ sumZ (decrements oid (calls (run schedule (arrive st reqs)))) <= quantity s).
Proof.
  intros Hs Hq.
  destruct (run_quantity schedule (arrive st reqs) oid s Hs Hq)
    as (s' & Hs' & Hq' & Hsum).
  exists s'. cbn in Hsum. split; [assumption|]. split; [assumption|].
  intros Hbound. specialize (Hsum Hbound). lia.
Qed.

Lemma concurrent_purchases_exact_witness :
  exists s',
    db (run interleaved (arrive (shelf 10) threeBuyers)) !! sampleOid = Some s'
    /\ 0 <= quantity s'
    /\ (quantity (sample 10 true) <= 2 ^ 53 ->
        quantity s'
        = quantity (sample 10 true)
          - sumZ (decrements sampleOid
                    (calls (run interleaved (arrive (shelf 10) threeBuyers))))
        /\ sumZ (decrements sampleOid
                   (calls (run interleaved (arrive (shelf 10) threeBuyers))))
           <= quantity (sample 10 true)).
Proof.
  apply (concurrent_purchases_exact (shelf 10) threeBuyers interleaved sampleOid
           (sample 10 true)).
  - reflexivity.
  - simpl. lia.
Defined.

(** The claim of C4 fails beyond 2^53: two purchases of one unit each from
    an item with quantity 2^53 + 2 both succeed and leave 2^53 - 1, one less
    than the quantity minus the two units sold. *)
Lemma concurrent_purchases_round :
  let final :=
    run [mkTurn 0 (online 1); mkTurn 1 (online 2);
         mkTurn 0 (online 3); mkTurn 1 (online 4)]
        (arrive (shelf (2 ^ 53 + 2))
                [(sampleId, Object (Some 1%Q)); (sampleId, Object (Some 1%Q))]) in
  (status <$> omap response (handlers final)) = [200; 200]
  /\ decrements sampleOid (calls final) = [1; 1]
  /\ (quantity <$> db final !! sampleOid) = Some (2 ^ 53 - 1)
  /\ 2 ^ 53 - 1 <> 2 ^ 53 + 2 - sumZ [1; 1].
Proof.
  vm_compute. repeat split; try reflexivity.
  intros H. discriminate H.
Qed.

(** Scenario E of the specification: the three purchases all succeed and
    the item ends at quantity 1. *)
Example scenario_E :
  let final := run interleaved (arrive (shelf 10) threeBuyers) in
  (status <$> omap response (handlers final)) = [200; 200; 200]
  /\ decrements sampleOid (calls final) = [3; 2; 4]
  /\ (quantity <$> db final !! sampleOid) = Some 1
  /\ (inStock <$> db final !! sampleOid) = Some true.
Proof. vm_compute. repeat split; reflexivity. Qed.

(** With four buyers of 4 units each and 10 in stock, two are served. *)
Example no_oversell :
  let reqs := [(sampleId, Object (Some 4%Q)); (sampleId, Object (Some 4%Q));
               (sampleId, Object (Some 4%Q)); (sampleId, Object (Some 4%Q))] in
  let schedule := [mkTurn 3 (online 1); mkTurn 0 (online 2); mkTurn 2 (online 3);
                   mkTurn 1 (online 4); mkTurn 2 (online 5); mkTurn 1 (online 6);
                   mkTurn 0 (online 7); mkTurn 3 (online 8)] in
  let final := run schedule (arrive (shelf 10) reqs) in
  (status <$> omap response (handlers final)) = [200; 400; 400; 200]
  /\ (quantity <$> db final !! sampleOid) = Some 2.
Proof. vm_compute. repeat split; reflexivity. Qed.

(** ** What a reader can observe while purchases run *)

(** The save of a handler, made while the database is reachable and the
    document is stored: it writes the recomputed inStock, with updatedAt,
    to the stored document when the recomputed value differs from the one
    of the copy, and nothing otherwise. *)
Lemma save_step (e : Env) (d : Document) (cur : Sweet) (st : Store) :
  up e = true -> st !! _id d = Some cur -> inStockModified d = false ->
  exists r evs,
    handler_step e (AwaitSave d) st
    = (Responded r,
       if Bool.eqb (0 <? quantity (paths d)) (inStock (paths d)) then st
       else <[_id d := set_updatedAt (now e)
                         (set_inStock (0 <? quantity (paths d)) cur)]> st,
       evs).
Proof.
  intros Hu Hcur Hmod. cbn [handler_step].
  unfold Document_save, preSave, assign_inStock.
  destruct (Bool.eqb (0 <? quantity (paths d)) (inStock (paths d))) eqn:E.
  - rewrite E, Hu, Hcur, Hmod. eexists; eexists; reflexivity.
  - cbn [paths quantity inStock set_inStock _id inStockModified].
    rewrite Bool.eqb_reflx. cbn [paths quantity inStock set_inStock _id inStockModified].
    rewrite Hu, Hcur. eexists; eexists; reflexivity.
Qed.

Lemma handler_step_flagged (e : Env) (h h' : Handler) (st st' : Store)
    (evs : list Event) :
  handler_step e h st = (h', st', evs) ->
  flagged st -> current st h ->
  flagged st' /\ current st' h' /\ forall h0, current st h0 -> current st' h0.
Proof.
  intros Hstep Hfl Hcur.
  apply handler_step_cases in Hstep
    as [(-> & _ & Hh') | [(id & oid0 & s0 & a & Hs0 & Ha & -> & -> & _)
                        | (d & cur & -> & Hc & -> & _ & Hh')]].
  - split; [assumption|]. split; [|auto].
    destruct h'; cbn; auto. destruct (Hh' sweet eq_refl).
  - assert (Hin : inStock s0 = true) by (apply (Hfl oid0 s0 Hs0); lia).
    split; [|split].
    + intros oid s Hs Hq.
      destruct (decide (oid0 = oid)) as [->|Hne].
      * rewrite lookup_insert_eq in Hs. injection Hs as <-. exact Hin.
      * rewrite lookup_insert_ne in Hs by assumption. eauto.
    + cbn [current hydrate inStockModified paths _id].
      split; [reflexivity|]. split; [intros _; exact Hin|].
      eexists. rewrite lookup_insert_eq. split; [reflexivity|]. auto.
    + intros [| |d0|] H0; cbn [current] in *; auto.
      destruct H0 as (Hm & Hf & cur & Hc & Hle).
      split; [assumption|]. split; [assumption|].
      destruct (decide (oid0 = _id d0)) as [Heq|Hne].
      * rewrite <- Heq, lookup_insert_eq. eexists. split; [reflexivity|].
        intros Hz. rewrite <- Heq in Hc.
        assert (cur = s0) as -> by congruence.
        specialize (Hle Hz). lia.
      * exists cur. rewrite lookup_insert_ne by assumption. auto.
  - cbn [current] in Hcur. destruct Hcur as (Hm & Hf & cur0 & Hc0 & Hle).
    assert (cur0 = cur) as -> by congruence.
    split; [|split].
    + intros oid s Hs Hq.
      destruct (decide (_id d = oid)) as [<-|Hne].
      * rewrite lookup_insert_eq in Hs. injection Hs as <-.
        cbn [quantity inStock set_updatedAt set_inStock] in *.
        apply Z.ltb_lt. lia.
      * rewrite lookup_insert_ne in Hs by assumption. eauto.
    + destruct h'; cbn; auto. destruct (Hh' sweet eq_refl).
    + intros [| |d0|] H0; cbn [current] in *; auto.
      destruct H0 as (Hm0 & Hf0 & c0 & Hc0' & Hle0).
      split; [assumption|]. split; [assumption|].
      destruct (decide (_id d = _id d0)) as [Heq|Hne].
      * rewrite <- Heq, lookup_insert_eq. eexists. split; [reflexivity|].
        rewrite <- Heq in Hc0'. assert (c0 = cur) as -> by congruence.
        exact Hle0.
      * exists c0. rewrite lookup_insert_ne by assumption. auto.
Qed.

Lemma system_step_flagged (sys : System) (t : Turn) :
  flagged (db sys) -> Forall (current (db sys)) (handlers sys) ->
  flagged (db (system_step sys t))
  /\ Forall (current (db (system_step sys t))) (handlers (system_step sys t)).
Proof.
  intros Hfl Hall. unfold system_step.
  destruct (handlers sys !! who t) as [h|] eqn:Hh; [|auto].
  destruct (handler_step (env t) h (db sys)) as [[h' st'] evs] eqn:Hstep.
  pose proof (Forall_lookup_1 _ _ _ _ Hall Hh) as Hcur.
  destruct (handler_step_flagged _ _ _ _ _ _ Hstep Hfl Hcur) as (Hfl' & Hcur' & Hmono).
  cbn. split; [assumption|].
  apply Forall_insert; [|assumption].
  eapply Forall_impl; [exact Hall | exact Hmono].
Qed.

Lemma run_flagged (schedule : list Turn) :
  forall sys : System,
    flagged (db sys) -> Forall (current (db sys)) (handlers sys) ->
    flagged (db (run schedule sys)).
Proof.
  induction schedule as [|t schedule IH]; intros sys Hfl Hall; [assumption|].
  destruct (system_step_flagged sys t Hfl Hall) as [Hfl' Hall'].
  exact (IH _ Hfl' Hall').
Qed.

Lemma arrive_current (st : Store) (reqs : list (string * Body)) :
  Forall (current st) (handlers (arrive st reqs)).
Proof.
  cbn. induction reqs as [|r reqs IH]; constructor; [exact I | exact IH].
Qed.

Lemma settled_flagged (sys : System) : settled sys -> flagged (db sys).
Proof.
  intros Hset oid s Hs Hq.
  destruct (Hset oid s Hs) as [-> | (Hz & _)]; [apply Z.ltb_lt; assumption | lia].
Qed.

Lemma arrive_settled (st : Store) (reqs : list (string * Body)) :
  consistent st -> settled (arrive st reqs).
Proof. intros Hc oid s Hs. left. exact (Hc oid s Hs). Qed.

(** The handler that is to save the last unit of an item stays in the list
    while another handler moves. *)
Lemma savesLastUnit_kept (l : list Handler) (i : nat) (h h' : Handler)
    (oid : ObjectId) :
  l !! i = Some h -> ~ savesLastUnit oid h ->
  (exists j h0, l !! j = Some h0 /\ savesLastUnit oid h0) ->
  exists j h0, <[i := h']> l !! j = Some h0 /\ savesLastUnit oid h0.
Proof.
  intros Hi Hnot (j & h0 & Hj & Hw).
  exists j, h0. split; [|assumption].
  rewrite list_lookup_insert_ne; [assumption|].
  intros ->. assert (h0 = h) as -> by congruence. exact (Hnot Hw).
Qed.

(** One step of a handler whose store call reaches the database keeps the
    store settled: the decrement that takes the last unit opens the window,
    and the save of that handler closes it. *)
Lemma system_step_settled (sys : System) (t : Turn) :
  up (env t) = true ->
  settled sys -> Forall (current (db sys)) (handlers sys) ->
  settled (system_step sys t).
Proof.
  intros Hu Hset Hall. unfold system_step.
  destruct (handlers sys !! who t) as [h|] eqn:Hh; [|assumption].
  pose proof (Forall_lookup_1 _ _ _ _ Hall Hh) as Hcur.
  destruct (handler_step (env t) h (db sys)) as [[h' st'] evs] eqn:Hstep.
  intros oid s. cbn [db handlers].
  assert (Hkeep : ~ savesLastUnit oid h ->
                  forall s0, db sys !! oid = Some s0 ->
                    inStock s0 = (0 <? quantity s0)
                    \/ (quantity s0 = 0 /\ inStock s0 = true
                        /\ exists j h0, <[who t := h']> (handlers sys) !! j = Some h0
                                        /\ savesLastUnit oid h0)).
  { intros Hnot s0 Hs0.
    destruct (Hset oid s0 Hs0) as [Hl | (Hz & Hi & Hw)]; [left; assumption|].
    right. split; [assumption|]. split; [assumption|].
    eapply savesLastUnit_kept; eassumption. }
  destruct h as [id body|id|d|r].
  3:{ cbn [current] in Hcur. destruct Hcur as (Hm & Hf & cur & Hc & Hle).
      destruct (save_step (env t) d cur (db sys) Hu Hc Hm) as (r & evs0 & Hsave).
      rewrite Hsave in Hstep. injection Hstep as <- <- <-.
      destruct (Bool.eqb (0 <? quantity (paths d)) (inStock (paths d))) eqn:E.
      - apply Hkeep. cbn. intros (_ & Hq0 & Hi0).
        rewrite Hq0, Hi0 in E. discriminate E.
      - assert (Hq0 : quantity (paths d) <= 0).
        { destruct (Z.ltb_spec 0 (quantity (paths d))) as [Hpos|]; [|assumption].
          rewrite (Hf Hpos) in E. discriminate E. }
        assert (Hfalse : (0 <? quantity (paths d)) = false)
          by (apply Z.ltb_ge; assumption).
        destruct (decide (_id d = oid)) as [<-|Hne].
        + rewrite lookup_insert_eq. intros [= <-]. left.
          cbn [quantity inStock set_updatedAt set_inStock].
          rewrite Hfalse. symmetry. apply Z.ltb_ge. exact (Hle Hq0).
        + rewrite lookup_insert_ne by assumption.
          apply Hkeep. cbn. intros (Hid & _). congruence. }
  all: apply handler_step_cases in Hstep
      as [(-> & _ & _) | [(id0 & oid0 & s0 & a & Hs0 & Ha & -> & -> & _)
                         | (d & cur & Heq & _)]];
    [apply Hkeep; cbn; tauto | | discriminate Heq].
  all: destruct (decide (oid0 = oid)) as [->|Hne];
    [|rewrite lookup_insert_ne by assumption; apply Hkeep; cbn; tauto].
  all: rewrite lookup_insert_eq; intros [= <-];
    cbn [quantity inStock set_updatedAt set_quantity];
    assert (Hin : inStock s0 = true)
      by (destruct (Hset oid s0 Hs0) as [-> | (Hz & _)]; [apply Z.ltb_lt; lia | lia]);
    pose proof (sub_nonneg (quantity s0) a ltac:(lia)) as Hnn;
    destruct (Z.eq_dec (Number.sub (quantity s0) a) 0) as [Hz|Hnz];
    [|left; rewrite Hin; symmetry; apply Z.ltb_lt; lia].
  all: right; split; [assumption|]; split; [assumption|];
    exists (who t); eexists;
    (split; [apply list_lookup_insert_eq; eapply lookup_lt_Some; eassumption|]);
    cbn; auto.
Qed.

Lemma run_settled (schedule : list Turn) :
  forall sys : System,
    reachable schedule ->
    settled sys -> Forall (current (db sys)) (handlers sys) ->
    settled (run schedule sys)
    /\ Forall (current (db (run schedule sys))) (handlers (run schedule sys)).
Proof.
  unfold reachable.
  induction schedule as [|t schedule IH]; intros sys Hup Hset Hall; [auto|].
  apply Forall_cons in Hup as [Hu Hup].
  apply IH; [assumption | apply system_step_settled; assumption |].
  exact (proj2 (system_step_flagged sys t (settled_flagged _ Hset) Hall)).
Qed.

(** C2, as the code has it: the decrement of the quantity is one indivisible
    store operation and the recomputed inStock is written by a second one,
    the save that follows.  In every interleaving of purchase calls that
    starts from a store whose items with stock are all flagged as in stock,
    a reader never observes quantity > 0 with inStock false.  When the
    store starts with inStock equal to (quantity > 0) on every item and
    every store call reaches the database, a reader observes of every item
    either inStock equal to (quantity > 0), or quantity 0 with inStock still
    true while the handler that took the last unit has yet to save; the save
    of that handler writes inStock false, and once every purchase has
    answered, every item has inStock equal to (quantity > 0). *)
Theorem purchases_settle_inStock (st : Store) (reqs : list (string * Body))
    (schedule : list Turn) (oid : ObjectId) (s : Sweet) :
  flagged st ->
  db (run schedule (arrive st reqs)) !! oid = Some s ->
  (0 < quantity s -> inStock s = true)
  /\ (consistent st -> reachable schedule ->
      (inStock s = (0 <? quantity s)
       \/ (quantity s = 0 /\ inStock s = true
           /\ exists i h,
                handlers (run schedule (arrive st reqs)) !! i = Some h
                /\ savesLastUnit oid h
                /\ forall e, up e = true ->
                     inStock <$> db (system_step (run schedule (arrive st reqs))
                                                 (mkTurn i e)) !! oid
                     = Some false))
      /\ (Forall responded (handlers (run schedule (arrive st reqs))) ->
          inStock s = (0 <? quantity s))).
Proof.
  intros Hfl Hs. split.
  { exact (run_flagged schedule (arrive st reqs) Hfl (arrive_current st reqs) oid s Hs). }
  intros Hcons Hup.
  destruct (run_settled schedule (arrive st reqs) Hup (arrive_settled st reqs Hcons)
              (arrive_current st reqs)) as [Hset Hall].
  specialize (Hset oid s Hs).
  split.
  - destruct Hset as [Hl | (Hz & Hi & i & h & Hh & Hw)]; [left; exact Hl|].
    right. split; [assumption|]. split; [assumption|].
    exists i, h. split; [assumption|]. split; [assumption|].
    intros e Hu. unfold system_step. cbn [who env]. rewrite Hh.
    pose proof (Forall_lookup_1 _ _ _ _ Hall Hh) as Hcur.
    destruct h as [id body|id|d|r]; cbn [savesLastUnit] in Hw; try tauto.
    destruct Hw as (Hid & Hq0 & Hin).
    cbn [current] in Hcur. destruct Hcur as (Hm & _ & cur & Hc & _).
    destruct (save_step e d cur _ Hu Hc Hm) as (r & evs & ->).
    rewrite Hq0, Hin. cbn [Z.ltb Z.compare Bool.eqb db].
    rewrite Hid, lookup_insert_eq. reflexivity.
  - intros Hdone.
    destruct Hset as [Hl | (_ & _ & i & h & Hi & Hw)]; [exact Hl|].
    pose proof (Forall_lookup_1 _ _ _ _ Hdone Hi) as Hr.
    destruct h; cbn in Hw, Hr; tauto.
Qed.

Lemma purchases_settle_inStock_witness :
  db (run [mkTurn 0 (online 1); mkTurn 0 (online 2)]
          (arrive (shelf 1) [(sampleId, Object (Some 1%Q))])) !! sampleOid
  = Some (set_updatedAt 2 (sample 0 false))
  /\ inStock (set_updatedAt 2 (sample 0 false))
     = (0 <? quantity (set_updatedAt 2 (sample 0 false))).
Proof.
  split; [vm_compute; reflexivity|].
  destruct (purchases_settle_inStock (shelf 1) [(sampleId, Object (Some 1%Q))]
              [mkTurn 0 (online 1); mkTurn 0 (online 2)] sampleOid
              (set_updatedAt 2 (sample 0 false))) as [_ Hsettle].
  - intros oid0 s0 Hs0 _.
    destruct (decide (sampleOid = oid0)) as [<-|Hne].
    + vm_compute in Hs0. injection Hs0 as <-. reflexivity.
    + unfold shelf in Hs0. rewrite lookup_singleton_ne in Hs0 by assumption.
      discriminate Hs0.
  - vm_compute. reflexivity.
  - destruct Hsettle as [_ Hdone].
    + intros oid0 s0 Hs0.
      destruct (decide (sampleOid = oid0)) as [<-|Hne].
      * vm_compute in Hs0. injection Hs0 as <-. reflexivity.
      * unfold shelf in Hs0. rewrite lookup_singleton_ne in Hs0 by assumption.
        discriminate Hs0.
    + repeat constructor.
    + apply Hdone. vm_compute. repeat constructor.
Defined.

(** The claim of C2 fails between the two store calls of a purchase: the
    handler that bought the last unit has decremented and not yet saved, and
    the store shows quantity 0 with inStock true; its save then writes
    inStock false. *)
Lemma purchase_window_shows_stale_flag :
  let between := run [mkTurn 0 (online 1)]
                     (arrive (shelf 1) [(sampleId, Object (Some 1%Q))]) in
  let after := run [mkTurn 0 (online 2)] between in
  (exists d, handlers between = [AwaitSave d])
  /\ calls between
     = [mkEvent (FindOneAndUpdate sampleId 1)
          (Found (hydrate sampleOid (set_updatedAt 1 (sample 0 true))))]
  /\ (quantity <$> db between !! sampleOid) = Some 0
  /\ (inStock <$> db between !! sampleOid) = Some true
  /\ (inStock <$> db after !! sampleOid) = Some false.
Proof.
  vm_compute. repeat split; try reflexivity.
  eexists. reflexivity.
Qed.


(** ** Stored documents stay valid

    Every write to the collection goes through the validators of the
    schema or cannot break them, so the documents that [save] meets are
    valid ones. *)

Lemma path_passes {A} (required : option string) (check : A -> option string)
    (v : option A) :
  Validate.path required check v = [] ->
  match v with
  | Some a => check a = None
  | None => required = None
  end.
Proof.
  unfold Validate.path. destruct v as [a|].
  - destruct (check a); [discriminate | reflexivity].
  - destruct required; [discriminate | reflexivity].
Qed.

Lemma quantity_passes (q : Q) :
  Validate.quantity q = None -> 0 <= Number.toZ q.
Proof.
  unfold Validate.quantity, Number.lt, Number.toZ, Qle_bool.
  destruct q as [n d]; simpl.
  destruct (0 * Z.pos d <=? n * 1) eqn:E; simpl; [|discriminate].
  intros _. apply Z.leb_le in E. apply Z.div_pos; lia.
Qed.

Lemma insert_allValid (st : Store) (oid : ObjectId) (s : Sweet) :
  allValid st -> schemaValid s -> allValid (<[oid := s]> st).
Proof.
  intros Hst Hs oid0 s0.
  destruct (decide (oid = oid0)) as [->|Hne].
  - rewrite lookup_insert_eq. intros [= <-]. exact Hs.
  - rewrite lookup_insert_ne by assumption. apply Hst.
Qed.

Lemma createSweet_allValid (e : Env) (newId : ObjectId) (body : SweetInput)
    (st st' : Store) (r : Response) (log : list Event) :
  createSweet e newId body st = (r, st', log) -> allValid st -> allValid st'.
Proof.
  unfold createSweet.
  destruct (_ || _); [intros [= <- <- <-]; auto|].
  destruct (from_option _ false (in_price body)); [intros [= <- <- <-]; auto|].
  destruct (from_option _ false (in_quantity body)); [intros [= <- <- <-]; auto|].
  unfold Sweet_create. cbv zeta.
  generalize (castInput body). intros i.
  destruct (Validate.document i) eqn:Hv; [|intros [= <- <- <-]; auto].
  destruct (up e); [|intros [= <- <- <-]; auto].
  destruct (st !! newId); [intros [= <- <- <-]; auto|].
  intros [= <- <- <-] Hst. apply insert_allValid; [assumption|].
  unfold Validate.document in Hv.
  repeat (apply app_eq_nil in Hv as [?%path_passes Hv]).
  apply path_passes in Hv.
  destruct i as [[n|] [c|] [p|] q d]; try discriminate.
  unfold preSave, assign_inStock, schemaValid; cbn in *.
  destruct (Bool.eqb _ true); cbn; repeat split; try assumption.
  all: first [ destruct q as [q|]; cbn; [apply quantity_passes; assumption | reflexivity]
             | intros d0 ->; assumption ].
Qed.

Lemma applySet_valid (i : SweetInput) (t : Z) (s : Sweet) :
  Validate.update i = [] -> schemaValid s -> schemaValid (applySet i t s).
Proof.
  unfold Validate.update. intros Hv (Hn & Hc & Hp & Hq & Hd).
  repeat (apply app_eq_nil in Hv as [?%path_passes Hv]).
  apply path_passes in Hv.
  destruct i as [[n|] [c|] [p|] [q|] [d|]]; unfold schemaValid; cbn in *;
    repeat split; try assumption; try (apply quantity_passes; assumption);
    first [ intros d0 [= <-]; assumption | assumption ].
Qed.

Lemma updateSweet_allValid (e : Env) (id : string) (body : SweetInput)
    (st st' : Store) (r : Response) (log : list Event) :
  updateSweet e id body st = (r, st', log) -> allValid st -> allValid st'.
Proof.
  unfold updateSweet.
  destruct (from_option _ false (in_price body)); [intros [= <- <- <-]; auto|].
  destruct (from_option _ false (in_quantity body)); [intros [= <- <- <-]; auto|].
  unfold Sweet_findByIdAndUpdate.
  destruct (castObjectId id) as [oid|]; [|intros [= <- <- <-]; auto].
  destruct (Validate.update (castInput body)) eqn:Hv; [|intros [= <- <- <-]; auto].
  destruct (up e); [|intros [= <- <- <-]; auto].
  destruct (st !! oid) as [s|] eqn:Hs; [|intros [= <- <- <-]; auto].
  intros [= <- <- <-] Hst. apply insert_allValid; [assumption|].
  apply applySet_valid; [assumption | exact (Hst oid s Hs)].
Qed.

Lemma handler_step_allValid (e : Env) (h h' : Handler) (st st' : Store)
    (evs : list Event) :
  handler_step e h st = (h', st', evs) -> allValid st -> allValid st'.
Proof.
  intros Hstep Hst.
  apply handler_step_cases in Hstep
    as [(-> & _) | [(id & oid0 & s0 & a & Hs0 & Ha & -> & _)
                   | (d & cur & _ & Hc & -> & _)]]; [assumption| |].
  - apply insert_allValid; [assumption|].
    destruct (Hst oid0 s0 Hs0) as (Hn & Hcat & Hp & Hq & Hd).
    unfold schemaValid; cbn [name category price quantity description
                             set_updatedAt set_quantity].
    repeat split; try assumption. apply sub_nonneg. lia.
  - apply insert_allValid; [assumption|].
    exact (Hst _ cur Hc).
Qed.

Lemma run_allValid (schedule : list Turn) :
  forall sys : System, allValid (db sys) -> allValid (db (run schedule sys)).
Proof.
  induction schedule as [|t schedule IH]; intros sys Hst; [assumption|].
  apply IH. unfold system_step.
  destruct (handlers sys !! who t) as [h|]; [|assumption].
  destruct (handler_step (env t) h (db sys)) as [[h' st'] evs] eqn:Hstep.
  exact (handler_step_allValid _ _ _ _ _ _ Hstep Hst).
Qed.


(** * Further properties of the controllers, the model and the routes *)

(** ** Deleting and listing *)

Lemma findByIdAndDelete_cases (e : Env) (id : string) (st st' : Store) (r : Result) :
  Sweet_findByIdAndDelete e id st = (r, st') ->
  (st' = st /\ forall d, r <> Found d)
  \/ exists oid s,
       castObjectId id = Some oid /\ st !! oid = Some s
       /\ r = Found (hydrate oid s) /\ st' = delete oid st.
Proof.
  unfold Sweet_findByIdAndDelete.
  destruct (castObjectId id) as [oid|];
    [|intros [= <- <-]; left; split; [reflexivity | discriminate]].
  destruct (up e); [|intros [= <- <-]; left; split; [reflexivity | discriminate]].
  destruct (st !! oid) as [s|] eqn:Hs;
    [|intros [= <- <-]; left; split; [reflexivity | discriminate]].
  intros [= <- <-]. right. exists oid, s. auto.
Qed.

Lemma deleteSweet_cases (e : Env) (id : string) (st st' : Store) (r : Reply) :
  deleteSweet e id st = (r, st') ->
  (ok r = false /\ st' = st)
  \/ exists oid s,
       castObjectId id = Some oid /\ st !! oid = Some s
       /\ r = mkReply 200 true (Some "Sweet deleted successfully") None EmptyObject
       /\ st' = delete oid st.
Proof.
  unfold deleteSweet.
  destruct (Sweet_findByIdAndDelete e id st) as [res st1] eqn:Hdel.
  apply findByIdAndDelete_cases in Hdel
    as [[-> Hnf] | (oid & s & Hc & Hs & -> & ->)].
  - destruct res as [[| | |]| |d]; intros [= <- <-]; try (left; split; reflexivity).
    destruct (Hnf d eq_refl).
  - intros [= <- <-]. right. exists oid, s. auto.
Qed.



#[global] Instance newerFirst_total : Total newerFirst.
Proof. intros a b. unfold newerFirst. lia. Qed.

#[global] Instance newerFirst_transitive : Transitive newerFirst.
Proof. intros a b c. unfold newerFirst. lia. Qed.

(** What [Sweet.find().sort({ createdAt: -1 })] returns from a reachable
    database. *)
Lemma find_sorted_spec (e : Env) (st : Store) :
  up e = true ->
  exists l,
    Sweet_find_sorted e st = inr l
    /\ length l = size st
    /\ (forall oid s, (oid, s) ∈ l <-> st !! oid = Some s)
    /\ NoDup l.*1
    /\ StronglySorted newerFirst l.
Proof.
  intros Hu. unfold Sweet_find_sorted. rewrite Hu.
  eexists. split; [reflexivity|].
  pose proof (merge_sort_Permutation newerFirst (map_to_list st)) as Hperm.
  repeat split.
  - rewrite Hperm. apply length_map_to_list.
  - rewrite Hperm. apply elem_of_map_to_list.
  - rewrite Hperm. apply elem_of_map_to_list.
  - rewrite Hperm. apply NoDup_fst_map_to_list.
  - apply StronglySorted_merge_sort; apply _.
Qed.

Lemma getAllSweets_members (e : Env) (st : Store) :
  up e = true ->
  exists l,
    getAllSweets e st = (mkReply 200 true None (Some (size st)) (Many l), st)
    /\ forall oid s, (oid, s) ∈ l <-> st !! oid = Some s.
Proof.
  intros Hu.
  destruct (find_sorted_spec e st Hu) as (l & Hfind & Hlen & Hmem & _).
  exists l. unfold getAllSweets. rewrite Hfind, Hlen. auto.
Qed.

(** With the database reachable, [getAllSweets] answers 200 with every
    stored sweet exactly once, newest first, with [count] the number of
    sweets in the store, and leaves the store as it is. *)
Theorem getAllSweets_lists_the_store (e : Env) (st : Store) :
  up e = true ->
  exists l,
    getAllSweets e st = (mkReply 200 true None (Some (size st)) (Many l), st)
    /\ length l = size st
    /\ (forall oid s, (oid, s) ∈ l <-> st !! oid = Some s)
    /\ NoDup l.*1
    /\ StronglySorted newerFirst l.
Proof.
  intros Hu.
  destruct (find_sorted_spec e st Hu) as (l & Hfind & Hlen & Hmem & Hnd & Hsorted).
  exists l. unfold getAllSweets. rewrite Hfind, Hlen. auto.
Qed.

Lemma getAllSweets_lists_the_store_witness :
  exists l,
    getAllSweets (online 1) (shelf 4)
    = (mkReply 200 true None (Some (size (shelf 4))) (Many l), shelf 4)
    /\ length l = size (shelf 4)
    /\ (forall oid s, (oid, s) ∈ l <-> shelf 4 !! oid = Some s)
    /\ NoDup l.*1
    /\ StronglySorted newerFirst l.
Proof.
  apply (getAllSweets_lists_the_store (online 1) (shelf 4)). reflexivity.
Defined.

Example getAllSweets_newest_first :
  let st : Store := {[ 1%N := set_name "Old" (sample 1 true);
                       2%N := mkSweet "New" "Candy" 1 2 None true 7 7;
                       3%N := mkSweet "Mid" "Candy" 1 2 None true 3 3 ]} in
  match (getAllSweets (online 9) st).1 with
  | mkReply 200 true None (Some 3%nat) (Many l) => name <$> l.*2 = ["New"; "Mid"; "Old"]
  | _ => False
  end.
Proof. vm_compute. reflexivity. Qed.

(** A sweet that [createSweet] has just created is in the list that
    [getAllSweets] returns next, and the count has grown by one. *)
Theorem created_sweet_is_listed (e e' : Env) (newId : ObjectId) (body : SweetInput)
    (st st' : Store) (r : Response) (log : list Event) :
  createSweet e newId body st = (r, st', log) ->
  success r = true ->
  up e' = true ->
  exists s l,
    data r = Some (newId, s)
    /\ getAllSweets e' st' = (mkReply 200 true None (Some (S (size st))) (Many l), st')
    /\ (newId, s) ∈ l
    /\ forall oid0 s0, st !! oid0 = Some s0 -> (oid0, s0) ∈ l.
Proof.
  intros Hcreate Hok Hu.
  assert (Hfresh : st !! newId = None).
  { revert Hcreate Hok. unfold createSweet.
    destruct (_ || _); [intros [= <- <- <-]; discriminate|].
    destruct (from_option _ false (in_price body)); [intros [= <- <- <-]; discriminate|].
    destruct (from_option _ false (in_quantity body)); [intros [= <- <- <-]; discriminate|].
    unfold Sweet_create.
    destruct (Validate.document (castInput body)); [|intros [= <- <- <-]; discriminate].
    destruct (up e); [|intros [= <- <- <-]; discriminate].
    destruct (st !! newId); [intros [= <- <- <-]; discriminate | reflexivity]. }
  destruct (createSweet_inStock _ _ _ _ _ _ _ Hcreate Hok) as (s & Hdata & -> & _).
  destruct (getAllSweets_members e' (<[newId := s]> st) Hu)
    as (l & Hget & Hmem).
  exists s, l. split; [assumption|].
  rewrite Hget, map_size_insert_None by assumption.
  split; [reflexivity|]. split.
  - apply Hmem. apply lookup_insert_eq.
  - intros oid0 s0 Hs0. apply Hmem.
    rewrite lookup_insert_ne; [assumption | congruence].
Qed.

(** ** Writes that fail, and what a write touches *)

Lemma createSweet_cases (e : Env) (newId : ObjectId) (body : SweetInput)
    (st st' : Store) (r : Response) (log : list Event) :
  createSweet e newId body st = (r, st', log) ->
  (success r = false /\ st' = st)
  \/ (success r = true /\ status r = 201 /\ st !! newId = None
      /\ Validate.document (castInput body) = [] /\ up e = true).
Proof.
  unfold createSweet.
  destruct (_ || _); [intros [= <- <- <-]; left; auto|].
  destruct (from_option _ false (in_price body)); [intros [= <- <- <-]; left; auto|].
  destruct (from_option _ false (in_quantity body)); [intros [= <- <- <-]; left; auto|].
  unfold Sweet_create.
  destruct (Validate.document (castInput body)) as [|m ms];
    [|intros [= <- <- <-]; left; auto].
  destruct (up e); [|intros [= <- <- <-]; left; auto].
  destruct (st !! newId); [intros [= <- <- <-]; left; auto|].
  intros [= <- <- <-]. right. auto.
Qed.

Lemma updateSweet_cases (e : Env) (id : string) (body : SweetInput)
    (st st' : Store) (r : Response) (log : list Event) :
  updateSweet e id body st = (r, st', log) ->
  (success r = false /\ st' = st)
  \/ exists oid s,
       castObjectId id = Some oid /\ st !! oid = Some s
       /\ Validate.update (castInput body) = [] /\ up e = true
       /\ r = mkResponse 200 true (Some "Sweet updated successfully")
                (Some (oid, applySet (castInput body) (now e) s))
       /\ st' = <[oid := applySet (castInput body) (now e) s]> st.
Proof.
  unfold updateSweet.
  destruct (from_option _ false (in_price body)); [intros [= <- <- <-]; left; auto|].
  destruct (from_option _ false (in_quantity body)); [intros [= <- <- <-]; left; auto|].
  unfold Sweet_findByIdAndUpdate.
  destruct (castObjectId id) as [oid|]; [|intros [= <- <- <-]; left; auto].
  destruct (Validate.update (castInput body)) as [|m ms];
    [|intros [= <- <- <-]; left; auto].
  destruct (up e); [|intros [= <- <- <-]; left; auto].
  destruct (st !! oid) as [s|] eqn:Hs; [|intros [= <- <- <-]; left; auto].
  intros [= <- <- <-]. right. exists oid, s. auto 10.
Qed.

(** The administrative writes are all or nothing: a [createSweet], an
    [updateSweet] or a [deleteSweet] that answers with a failure, whatever
    its kind, leaves the store exactly as it was. *)
Theorem failed_admin_write_changes_nothing (e : Env) (id : string)
    (newId : ObjectId) (body : SweetInput) (st : Store) :
  (forall r st' log, createSweet e newId body st = (r, st', log) ->
                     success r = false -> st' = st)
  /\ (forall r st' log, updateSweet e id body st = (r, st', log) ->
                        success r = false -> st' = st)
  /\ (forall r st', deleteSweet e id st = (r, st') -> ok r = false -> st' = st).
Proof.
  repeat split.
  - intros r st' log Hrun Hf.
    apply createSweet_cases in Hrun as [[_ ->] | (Hs & _)];
      [reflexivity | congruence].
  - intros r st' log Hrun Hf.
    apply updateSweet_cases in Hrun as [[_ ->] | (oid & s & _ & _ & _ & _ & -> & _)];
      [reflexivity | discriminate Hf].
  - intros r st' Hrun Hf.
    apply deleteSweet_cases in Hrun as [[_ ->] | (oid & s & _ & _ & -> & _)];
      [reflexivity | discriminate Hf].
Qed.

(** A [createSweet] that answers with success has stored, under the new
    id and beside the items that were there, the item it returns; that item
    carries the trimmed name and category of the request, the quantity of
    the request, and inStock equal to (quantity > 0). *)
Theorem createSweet_stores_what_it_returns (e : Env) (newId : ObjectId)
    (body : SweetInput) (st st' : Store) (r : Response) (log : list Event) :
  createSweet e newId body st = (r, st', log) ->
  success r = true ->
  exists s,
    data r = Some (newId, s)
    /\ st !! newId = None
    /\ st' = <[newId := s]> st
    /\ Some (name s) = trim <$> in_name body
    /\ Some (category s) = trim <$> in_category body
    /\ Some (quantity s) = Number.toZ <$> in_quantity body
    /\ inStock s = (0 <? quantity s)
    /\ createdAt s = now e /\ updatedAt s = now e.
Proof.
  intros Hrun Hok.
  pose proof Hrun as Hcases.
  apply createSweet_cases in Hcases as [[Hf _] | (_ & _ & Hfresh & _ & _)];
    [congruence|].
  destruct (createSweet_inStock _ _ _ _ _ _ _ Hrun Hok) as (s & Hdata & Hst & Hin).
  exists s. split; [assumption|]. split; [assumption|]. split; [assumption|].
  revert Hrun Hdata. unfold createSweet.
  destruct (falsy (in_name body)) eqn:Fn; [intros [= <- <- <-]; discriminate|].
  destruct (falsy (in_category body)) eqn:Fc; [intros [= <- <- <-]; discriminate|].
  destruct (undefined (in_price body)) eqn:Up; [intros [= <- <- <-]; discriminate|].
  destruct (undefined (in_quantity body)) eqn:Uq; [intros [= <- <- <-]; discriminate|].
  cbn [orb].
  destruct (from_option _ false (in_price body)); [intros [= <- <- <-]; discriminate|].
  destruct (from_option _ false (in_quantity body)); [intros [= <- <- <-]; discriminate|].
  unfold Sweet_create.
  destruct (Validate.document (castInput body)); [|intros [= <- <- <-]; discriminate].
  destruct (up e); [|intros [= <- <- <-]; discriminate].
  destruct (st !! newId); [intros [= <- <- <-]; discriminate|].
  intros [= <- _ _]. cbn [data toJSON hydrate _id paths]. intros [= <-].
  destruct body as [[n|] [c|] [p|] [q|] d]; try discriminate.
  unfold preSave, assign_inStock, castInput; cbn.
  destruct (Bool.eqb _ true) eqn:E; cbn; repeat split; try reflexivity.
  - apply Bool.eqb_prop in E. symmetry. exact E.
Qed.

Lemma failed_admin_write_changes_nothing_witness :
  shelf 5 = shelf 5.
Proof.
  destruct (failed_admin_write_changes_nothing (online 1) sampleId sampleOid
              lollipop (shelf 5)) as (Hcreate & _ & _).
  apply (Hcreate (fail 500 "Error creating sweet") (shelf 5)
           [mkEvent (Create lollipop) (Threw MongoServerError)]).
  - vm_compute. reflexivity.
  - reflexivity.
Defined.

Lemma createSweet_stores_what_it_returns_witness :
  exists s,
    Some (7%N, mkSweet "Lollipop" "Candy" 2 200 (Some "Sweet lollipop") true 1 1)
    = Some (7%N, s)
    /\ shelf 5 !! 7%N = None
    /\ <[7%N := mkSweet "Lollipop" "Candy" 2 200 (Some "Sweet lollipop") true 1 1]>
         (shelf 5)
       = <[7%N := s]> (shelf 5)
    /\ Some (name s) = trim <$> in_name lollipop
    /\ Some (category s) = trim <$> in_category lollipop
    /\ Some (quantity s) = Number.toZ <$> in_quantity lollipop
    /\ inStock s = (0 <? quantity s)
    /\ createdAt s = now (online 1) /\ updatedAt s = now (online 1).
Proof.
  apply (createSweet_stores_what_it_returns (online 1) 7%N lollipop (shelf 5)
           (<[7%N := mkSweet "Lollipop" "Candy" 2 200 (Some "Sweet lollipop") true 1 1]>
              (shelf 5))
           (mkResponse 201 true (Some "Sweet created successfully")
              (Some (7%N, mkSweet "Lollipop" "Candy" 2 200 (Some "Sweet lollipop")
                                  true 1 1)))
           [mkEvent (Create lollipop)
              (Found (hydrate 7%N (mkSweet "Lollipop" "Candy" 2 200
                                           (Some "Sweet lollipop") true 1 1)))]).
  - vm_compute. reflexivity.
  - reflexivity.
Defined.

Lemma created_sweet_is_listed_witness :
  exists s l,
    Some (7%N, mkSweet "Lollipop" "Candy" 2 200 (Some "Sweet lollipop") true 1 1)
    = Some (7%N, s)
    /\ getAllSweets (online 2)
         (<[7%N := mkSweet "Lollipop" "Candy" 2 200 (Some "Sweet lollipop") true 1 1]>
            (shelf 5))
       = (mkReply 200 true None (Some (S (size (shelf 5)))) (Many l),
          <[7%N := mkSweet "Lollipop" "Candy" 2 200 (Some "Sweet lollipop") true 1 1]>
            (shelf 5))
    /\ (7%N, s) ∈ l
    /\ forall oid0 s0, shelf 5 !! oid0 = Some s0 -> (oid0, s0) ∈ l.
Proof.
  apply (created_sweet_is_listed (online 1) (online 2) 7%N lollipop (shelf 5)
           (<[7%N := mkSweet "Lollipop" "Candy" 2 200 (Some "Sweet lollipop") true 1 1]>
              (shelf 5))
           (mkResponse 201 true (Some "Sweet created successfully")
              (Some (7%N, mkSweet "Lollipop" "Candy" 2 200 (Some "Sweet lollipop")
                                  true 1 1)))
           [mkEvent (Create lollipop)
              (Found (hydrate 7%N (mkSweet "Lollipop" "Candy" 2 200
                                           (Some "Sweet lollipop") true 1 1)))]).
  - vm_compute. reflexivity.
  - reflexivity.
  - reflexivity.
Defined.

(** ** What a purchase touches *)

(** Whatever its outcome, a purchase creates and removes no document,
    leaves every document other than the one under its id untouched, and on
    that one changes at most quantity, inStock and updatedAt; a stored
    quantity that is a double (as every number is that the application
    stores) never goes up and stays a double. *)
Theorem purchase_touches_one_item (e1 e2 : Env) (id : string) (body : Body)
    (st st' : Store) (r : Response) (log : list Event) :
  purchaseSweet e1 e2 id body st = (r, st', log) ->
  (forall oid, st !! oid = None -> st' !! oid = None)
  /\ (forall oid, castObjectId id <> Some oid -> st' !! oid = st !! oid)
  /\ forall oid s, st !! oid = Some s ->
       exists s', st' !! oid = Some s'
         /\ name s' = name s /\ category s' = category s /\ price s' = price s
         /\ description s' = description s /\ createdAt s' = createdAt s
         /\ (Number.isDouble (quantity s) ->
             quantity s' <= quantity s /\ Number.isDouble (quantity s')).
Proof.
  intros Hrun.
  assert (Hsame : st' = st ->
    (forall oid, st !! oid = None -> st' !! oid = None)
    /\ (forall oid, castObjectId id <> Some oid -> st' !! oid = st !! oid)
    /\ forall oid s, st !! oid = Some s ->
         exists s', st' !! oid = Some s'
           /\ name s' = name s /\ category s' = category s /\ price s' = price s
           /\ description s' = description s /\ createdAt s' = createdAt s
           /\ (Number.isDouble (quantity s) ->
               quantity s' <= quantity s /\ Number.isDouble (quantity s'))).
  { intros ->. repeat split; auto; intros oid s Hs; exists s; repeat split; auto; lia. }
  revert Hrun. unfold purchaseSweet.
  destruct (requestedQuantity body) as [q|]; [|intros [= <- <- <-]; auto].
  destruct (invalidQuantity q) eqn:Hv; [intros [= <- <- <-]; auto|].
  destruct (valid_amount_integer _ Hv) as [Ha _].
  set (a := Number.toZ q) in *.
  unfold Sweet_findOneAndUpdate.
  destruct (castObjectId id) as [oid0|] eqn:Hc; [|intros [= <- <- <-]; auto].
  destruct (up e1); [|intros [= <- <- <-]; auto].
  destruct (st !! oid0) as [s0|] eqn:Hs0.
  2:{ destruct (Sweet_findById e2 id st) as [err| |d]; intros [= <- <- <-]; auto. }
  destruct (Z.leb_spec a (quantity s0)) as [Hle|Hgt].
  2:{ destruct (Sweet_findById e2 id st) as [err| |d]; intros [= <- <- <-]; auto. }
  set (s1 := set_updatedAt (now e1) (set_quantity (Number.sub (quantity s0) a) s0)).
  change (paths (hydrate oid0 s1)) with s1.
  assert (Hdown : Number.isDouble (quantity s0) ->
                  quantity s1 <= quantity s0 /\ Number.isDouble (quantity s1)).
  { intros Hdouble. change (quantity s1) with (Number.sub (quantity s0) a).
    split; [apply sub_le; [lia | exact Hdouble] | apply sub_isDouble; lia]. }
  assert (Hfinal : forall s2 : Sweet,
    name s2 = name s0 -> category s2 = category s0 -> price s2 = price s0 ->
    description s2 = description s0 -> createdAt s2 = createdAt s0 ->
    quantity s2 = quantity s1 ->
    forall st2 : Store, (forall oid, oid <> oid0 -> st2 !! oid = st !! oid) ->
                st2 !! oid0 = Some s2 ->
    (forall oid, st !! oid = None -> st2 !! oid = None)
    /\ (forall oid, Some oid0 <> Some oid -> st2 !! oid = st !! oid)
    /\ forall oid s, st !! oid = Some s ->
         exists s', st2 !! oid = Some s'
           /\ name s' = name s /\ category s' = category s /\ price s' = price s
           /\ description s' = description s /\ createdAt s' = createdAt s
           /\ (Number.isDouble (quantity s) ->
               quantity s' <= quantity s /\ Number.isDouble (quantity s'))).
  { intros s2 Hn Hcat Hp Hd Hcr Hq st2 Hother Hat. repeat split.
    - intros oid Hnone. rewrite Hother; [assumption | congruence].
    - intros oid Hne. apply Hother. congruence.
    - intros oid s Hs. destruct (decide (oid = oid0)) as [->|Hne].
      + assert (s0 = s) as <- by congruence. exists s2.
        rewrite Hq. auto 10.
      + exists s. rewrite Hother by assumption. repeat split; auto. lia. }
  destruct (up e2) eqn:Hu2.
  - destruct (save_after_decrement e2 oid0 s1 (<[oid0 := s1]> st) Hu2)
      as (item & Hsave & Hq & _ & Hn & Hcat & Hp & Hd & Hcr);
      [apply lookup_insert_eq|].
    rewrite Hsave. intros [= <- <- <-].
    apply (Hfinal item); try assumption.
    + intros oid Hne. rewrite !lookup_insert_ne by congruence. reflexivity.
    + apply lookup_insert_eq.
  - unfold Document_save. rewrite Hu2. intros [= <- <- <-].
    apply (Hfinal s1); try reflexivity.
    + intros oid Hne. rewrite lookup_insert_ne by congruence. reflexivity.
    + apply lookup_insert_eq.
Qed.

Lemma purchase_touches_one_item_witness :
  (forall oid, shelf 5 !! oid = None ->
               <[sampleOid := set_updatedAt 1 (sample 3 true)]> (shelf 5) !! oid = None)
  /\ (forall oid, castObjectId sampleId <> Some oid ->
        <[sampleOid := set_updatedAt 1 (sample 3 true)]> (shelf 5) !! oid
        = shelf 5 !! oid)
  /\ forall oid s, shelf 5 !! oid = Some s ->
       exists s',
         <[sampleOid := set_updatedAt 1 (sample 3 true)]> (shelf 5) !! oid = Some s'
         /\ name s' = name s /\ category s' = category s /\ price s' = price s
         /\ description s' = description s /\ createdAt s' = createdAt s
         /\ (Number.isDouble (quantity s) ->
             quantity s' <= quantity s /\ Number.isDouble (quantity s')).
Proof.
  apply (purchase_touches_one_item (online 1) (online 2) sampleId
           (Object (Some 2%Q))
           (shelf 5) (<[sampleOid := set_updatedAt 1 (sample 3 true)]> (shelf 5))
           (mkResponse 200 true (Some "Purchase successful")
              (Some (sampleOid, set_updatedAt 1 (sample 3 true))))
           [mkEvent (FindOneAndUpdate sampleId 2)
              (Found (hydrate sampleOid (set_updatedAt 1 (sample 3 true))));
            mkEvent (Save sampleOid)
              (Found (hydrate sampleOid (set_updatedAt 1 (sample 3 true))))]).
  vm_compute. reflexivity.
Defined.

(** Beyond 2^53 a purchase may answer with success and leave the quantity
    as it was: 2^53 + 4 less 1 is 2^53 + 3, which lies halfway between two
    doubles and goes to the one with the even significand, 2^53 + 4. *)
Example purchase_takes_nothing :
  let '(r, st', _) :=
    purchaseSweet (online 1) (online 2) sampleId (Object (Some 1%Q))
                  (shelf (2 ^ 53 + 4)) in
  status r = 200 /\ (quantity <$> st' !! sampleOid) = Some (2 ^ 53 + 4).
Proof. vm_compute. split; reflexivity. Qed.

Lemma positive_integer_valid (q : Q) (a : Z) :
  1 <= a -> (q == inject_Z a)%Q -> invalidQuantity q = false.
Proof.
  destruct q as [n d]. unfold Qeq; cbn. intros Ha Heq.
  assert (Hn : n = a * Z.pos d) by lia. subst n.
  unfold invalidQuantity, Number.lt, Number.isInteger, Qle_bool; cbn.
  rewrite Z.mod_mul by lia. cbn.
  replace (1 * Z.pos d <=? a * Z.pos d * 1) with true; [reflexivity|].
  symmetry. apply Z.leb_le. nia.
Qed.

(** Every purchase makes at most two calls on the model, and it makes none
    exactly when the request has no body or its amount is not a positive
    integer. *)
Theorem purchase_makes_at_most_two_calls (e1 e2 : Env) (id : string)
    (body : Body) (st : Store) :
  (length (purchaseSweet e1 e2 id body st).2 <= 2)%nat
  /\ ((purchaseSweet e1 e2 id body st).2 = []
      <-> body = Undefined
          \/ exists q, requestedQuantity body = Some q
                       /\ forall a : Z, 1 <= a -> ~ (q == inject_Z a)%Q).
Proof.
  unfold purchaseSweet.
  destruct body as [|quantity]; cbn [requestedQuantity].
  { cbn. split; [lia|]. split; [left; reflexivity | reflexivity]. }
  set (q := default 1%Q quantity).
  destruct (invalidQuantity q) eqn:Hv.
  - cbn. split; [lia|]. split; [|reflexivity].
    intros _. right. exists q. split; [reflexivity|].
    intros a Ha Heq.
    rewrite (positive_integer_valid _ a Ha Heq) in Hv. discriminate Hv.
  - destruct (valid_amount_integer _ Hv) as [Ha Heq].
    assert (Hnot : ~ (Object quantity = Undefined
                      \/ exists q0, Some q = Some q0
                           /\ forall a : Z, 1 <= a -> ~ (q0 == inject_Z a)%Q)).
    { intros [H | (q0 & [= <-] & H)]; [discriminate H | exact (H _ Ha Heq)]. }
    destruct (Sweet_findOneAndUpdate e1 id _ st) as [[err| |sweet] st1]; cbn.
    + split; [lia|]. split; [discriminate | intros H; destruct (Hnot H)].
    + destruct (Sweet_findById e2 id st1); cbn;
        (split; [lia|]; split; [discriminate | intros H; destruct (Hnot H)]).
    + destruct (Document_save e2 _ st1) as [[err|saved] st2]; cbn;
        (split; [lia|]; split; [discriminate | intros H; destruct (Hnot H)]).
Qed.


(** ** Who may write *)

Lemma split_no_separator (s : string) :
  ~ In " "%char (list_ascii_of_string s) -> split " " s = [s].
Proof.
  induction s as [|c s IH]; [reflexivity|].
  cbn. intros Hno.
  destruct (Ascii.eqb_spec c " "%char) as [->|Hne]; [tauto|].
  rewrite IH by tauto. reflexivity.
Qed.

Lemma split_at_first_separator (x rest : string) :
  ~ In " "%char (list_ascii_of_string x) ->
  split " " (x ++ String " " rest) = x :: split " " rest.
Proof.
  induction x as [|c x IH]; [reflexivity|].
  intros Hno.
  change (String c x ++ String " " rest) with (String c (x ++ String " " rest)).
  cbn [split]. cbn in Hno.
  destruct (Ascii.eqb_spec c " "%char) as [->|Hne]; [tauto|].
  rewrite IH by tauto. reflexivity.
Qed.

(** The token that the middleware reads is the second word of the header:
    for a header made of a scheme that starts with Bearer, one space and a
    token without spaces, it is that token.  The scheme need not be exactly
    Bearer: any word that starts with it is accepted. *)
Theorem bearerToken_second_word (x t : string) :
  ~ In " "%char (list_ascii_of_string x) ->
  ~ In " "%char (list_ascii_of_string t) ->
  bearerToken (Some ("Bearer" ++ x ++ " " ++ t)) = Some t.
Proof.
  intros Hx Ht.
  assert (Hword : ~ In " "%char (list_ascii_of_string ("Bearer" ++ x))).
  { cbn. intros [H|[H|[H|[H|[H|[H|H]]]]]]; try discriminate H. exact (Hx H). }
  unfold bearerToken.
  change ("Bearer" ++ x ++ " " ++ t) with (("Bearer" ++ x) ++ String " " t).
  rewrite split_at_first_separator by assumption.
  rewrite split_no_separator by assumption.
  simpl.
  match goal with
  | |- context [String.prefix "" ?s] => destruct s; reflexivity
  end.
Qed.

Lemma bearerToken_second_word_witness :
  bearerToken (Some ("Bearer" ++ "" ++ " " ++ "admin-token")) = Some "admin-token".
Proof.
  apply (bearerToken_second_word "" "admin-token"); vm_compute; intuition discriminate.
Defined.

Example bearer_edge_cases :
  bearerToken None = None
  /\ bearerToken (Some "") = None
  /\ bearerToken (Some "Basic abc") = None
  /\ bearerToken (Some "bearer abc") = None
  /\ bearerToken (Some "Bearer") = None
  /\ bearerToken (Some "Bearer  abc") = Some ""
  /\ bearerToken (Some "Bearer abc def") = Some "abc"
  /\ bearerToken (Some "BearerX abc") = Some "abc".
Proof. repeat split; reflexivity. Qed.

Lemma falsy_token (token : string) :
  falsy (Some token) = false <-> token <> "".
Proof.
  destruct token; cbn; split; intros H; congruence.
Qed.

Lemma role_is_admin (u : User) :
  existsb (String.eqb (role u)) ["admin"] = true <-> role u = "admin".
Proof.
  cbn. rewrite orb_false_r. apply String.eqb_eq.
Qed.

Lemma adminOnly_cases (jwt_verify : string -> option string) (eAuth : Env)
    (users : gmap ObjectId User) (auth : option string)
    (handler : Store -> Reply * Store * list Access)
    (st st' : Store) (r : Reply) (log : list Access) :
  adminOnly jwt_verify eAuth users auth handler st = (r, st', log) ->
  (authenticatedAdmin jwt_verify users eAuth auth
   /\ exists id log', log = UserFindById id :: log' /\ handler st = (r, st', log'))
  \/ (~ authenticatedAdmin jwt_verify users eAuth auth
      /\ (code r = 401 \/ code r = 403) /\ ok r = false /\ st' = st
      /\ forall a, a ∈ log -> exists id, a = UserFindById id).
Proof.
  unfold adminOnly, protect.
  destruct (bearerToken auth) as [token|] eqn:Htok.
  2:{ cbn; intros [= <- <- <-]. right. repeat split; auto.
      - intros (t & i & o & u & H & _). congruence.
      - intros a Ha. inversion Ha. }
  destruct (falsy (Some token)) eqn:Hfalsy.
  { cbn; intros [= <- <- <-]. right. repeat split; auto.
    - intros (t & i & o & u & H & Hne & _).
      rewrite Htok in H; injection H as <-. apply falsy_token in Hne. congruence.
    - intros a Ha. inversion Ha. }
  apply falsy_token in Hfalsy.
  change (default "" (Some token)) with token.
  destruct (jwt_verify token) as [id|] eqn:Hver.
  2:{ cbn; intros [= <- <- <-]. right. repeat split; auto.
      - intros (t & i & o & u & H & _ & Hv & _).
        rewrite Htok in H; injection H as <-. congruence.
      - intros a Ha. inversion Ha. }
  assert (Hlog : forall a : Access, a ∈ [UserFindById id] -> exists i, a = UserFindById i).
  { intros a Ha. apply list_elem_of_singleton in Ha. eauto. }
  unfold User_findById.
  destruct (castObjectId id) as [oid|] eqn:Hc.
  2:{ cbn; intros [= <- <- <-]. right. repeat split; auto.
      intros (t & i & o & u & H & _ & Hv & Hc' & _).
      rewrite Htok in H; injection H as <-. congruence. }
  destruct (up eAuth) eqn:Hu.
  2:{ cbn; intros [= <- <- <-]. right. repeat split; auto.
      intros (t & i & o & u & _ & _ & _ & _ & Hu' & _). congruence. }
  destruct (users !! oid) as [u|] eqn:Huser.
  2:{ cbn; intros [= <- <- <-]. right. repeat split; auto.
      intros (t & i & o & u & H & _ & Hv & Hc' & _ & Hu' & _).
      rewrite Htok in H; injection H as <-. congruence. }
  unfold authorize.
  destruct (existsb (String.eqb (role u)) ["admin"]) eqn:Hrole.
  - apply role_is_admin in Hrole.
    destruct (handler st) as [[r0 st0] log0] eqn:Hh.
    cbn; intros [= <- <- <-]. left. split.
    + exists token, id, oid, u. auto 10.
    + exists id, log0. auto.
  - cbn; intros [= <- <- <-]. right. repeat split; auto.
    intros (t & i & o & u' & H & _ & Hv & Hc' & _ & Hu' & Hr).
    rewrite Htok in H; injection H as <-.
    assert (i = id) as -> by congruence.
    assert (o = oid) as -> by congruence.
    assert (u' = u) as -> by congruence.
    apply role_is_admin in Hr. congruence.
Qed.

(** The routes that create, update and delete a sweet are reached only by
    an authenticated admin: the request is either handed to the handler
    after one lookup of the user, or answered with 401 or 403 with the
    store unchanged and no call on the Sweet model. *)
Theorem admin_routes_are_guarded (jwt_verify : string -> option string)
    (eAuth e1 e2 : Env) (newId : ObjectId) (users : gmap ObjectId User)
    (auth : option string) (rt : Route) (st st' : Store) (r : Reply)
    (log : list Access) :
  adminRoute rt ->
  sweetRoutes jwt_verify eAuth e1 e2 newId users auth rt st = (r, st', log) ->
  (authenticatedAdmin jwt_verify users eAuth auth
   /\ exists id log',
        log = UserFindById id :: log' /\ adminHandler e1 newId rt st = (r, st', log'))
  \/ (~ authenticatedAdmin jwt_verify users eAuth auth
      /\ (code r = 401 \/ code r = 403) /\ ok r = false /\ st' = st
      /\ forall a, a ∈ log -> exists id, a = UserFindById id).
Proof.
  intros Hadmin Hrun.
  destruct rt as [|id|body|id body|id|id body]; try destruct Hadmin;
    exact (adminOnly_cases _ _ _ _ _ _ _ _ _ Hrun).
Qed.

Lemma admin_routes_are_guarded_witness :
  (authenticatedAdmin sampleVerify sampleUsers (online 0) (Some "Bearer user-token")
   /\ exists id log',
        [UserFindById userId] = UserFindById id :: log'
        /\ adminHandler (online 1) 7%N (DELETE_id sampleId) (shelf 5)
           = (reply (fail 403 ("User role 'user' is not authorized to access "
                               ++ "this route. Admin access required.")),
              shelf 5, log'))
  \/ (~ authenticatedAdmin sampleVerify sampleUsers (online 0)
          (Some "Bearer user-token")
      /\ (code (reply (fail 403 ("User role 'user' is not authorized to access "
                                 ++ "this route. Admin access required."))) = 401
          \/ code (reply (fail 403 ("User role 'user' is not authorized to access "
                                    ++ "this route. Admin access required."))) = 403)
      /\ ok (reply (fail 403 ("User role 'user' is not authorized to access "
                              ++ "this route. Admin access required."))) = false
      /\ shelf 5 = shelf 5
      /\ forall a, a ∈ [UserFindById userId] -> exists id, a = UserFindById id).
Proof.
  apply (admin_routes_are_guarded sampleVerify (online 0) (online 1) (online 2) 7%N
           sampleUsers (Some "Bearer user-token") (DELETE_id sampleId) (shelf 5)
           (shelf 5)
           (reply (fail 403 ("User role 'user' is not authorized to access "
                             ++ "this route. Admin access required.")))
           [UserFindById userId]).
  - exact I.
  - vm_compute. reflexivity.
Defined.

Example admin_deletes_and_user_does_not :
  (sweetRoutes sampleVerify (online 0) (online 1) (online 2) 7%N sampleUsers
     (Some "Bearer admin-token") (DELETE_id sampleId) (shelf 5)).1
  = (mkReply 200 true (Some "Sweet deleted successfully") None EmptyObject, ∅)
  /\ (sweetRoutes sampleVerify (online 0) (online 1) (online 2) 7%N sampleUsers
        None (DELETE_id sampleId) (shelf 5)).1
     = (reply (fail 401 "Not authorized to access this route. No token provided."),
        shelf 5).
Proof. vm_compute. split; reflexivity. Qed.

(** [optionalAuth] puts a user on the request exactly when [protect] would
    let the request through, and it is the same user. *)
Theorem optionalAuth_agrees_with_protect (jwt_verify : string -> option string)
    (e : Env) (users : gmap ObjectId User) (auth : option string) (u : User) :
  optionalAuth jwt_verify e users auth = Some u
  <-> (protect jwt_verify e users auth).1 = Next (Some u).
Proof.
  unfold optionalAuth, protect.
  destruct (falsy (bearerToken auth)); [split; discriminate|].
  destruct (jwt_verify (default "" (bearerToken auth))) as [id|];
    [|split; discriminate].
  destruct (User_findById e id users) as [err|[u0|]]; cbn;
    split; intros H; try discriminate H; congruence.
Qed.

(** ** Sequences of requests *)

Lemma purchaseSweet_outcomes (e1 e2 : Env) (id : string) (body : Body)
    (st st' : Store) (r : Response) (log : list Event) :
  purchaseSweet e1 e2 id body st = (r, st', log) ->
  st' = st
  \/ exists oid s s1,
       st !! oid = Some s /\ st' = <[oid := s1]> st
       /\ 0 <= quantity s1
       /\ (up e2 = false \/ inStock s1 = (0 <? quantity s1)).
Proof.
  unfold purchaseSweet.
  destruct (requestedQuantity body) as [q|]; [|intros [= <- <- <-]; auto].
  destruct (invalidQuantity q) eqn:Hv; [intros [= <- <- <-]; auto|].
  destruct (valid_amount_integer _ Hv) as [Ha _].
  set (a := Number.toZ q) in *.
  unfold Sweet_findOneAndUpdate.
  destruct (castObjectId id) as [oid|]; [|intros [= <- <- <-]; auto].
  destruct (up e1); [|intros [= <- <- <-]; auto].
  destruct (st !! oid) as [s|] eqn:Hs.
  2:{ destruct (Sweet_findById e2 id st) as [err| |d]; intros [= <- <- <-]; auto. }
  destruct (Z.leb_spec a (quantity s)) as [Hle|Hgt].
  2:{ destruct (Sweet_findById e2 id st) as [err| |d]; intros [= <- <- <-]; auto. }
  set (s1 := set_updatedAt (now e1) (set_quantity (Number.sub (quantity s) a) s)).
  change (paths (hydrate oid s1)) with s1.
  assert (Hq1 : 0 <= quantity s1).
  { change (quantity s1) with (Number.sub (quantity s) a). apply sub_nonneg. lia. }
  destruct (up e2) eqn:Hu2.
  - destruct (save_after_decrement e2 oid s1 (<[oid := s1]> st) Hu2)
      as (item & Hsave & Hq & Hi & _); [apply lookup_insert_eq|].
    rewrite Hsave. intros [= <- <- <-]. right.
    exists oid, s, item. rewrite insert_insert_eq.
    split; [assumption|]. split; [reflexivity|]. split; [lia|].
    right. rewrite Hi, Hq. reflexivity.
  - unfold Document_save. rewrite Hu2. intros [= <- <- <-]. right.
    exists oid, s, s1. split; [assumption|]. split; [reflexivity|].
    split; [assumption|]. left; reflexivity.
Qed.

Lemma purchaseSweet_allValid (e1 e2 : Env) (id : string) (body : Body)
    (st st' : Store) (r : Response) (log : list Event) :
  purchaseSweet e1 e2 id body st = (r, st', log) -> allValid st -> allValid st'.
Proof.
  rewrite purchaseSweet_steps.
  destruct (handler_step e1 (Requested id body) st) as [[h1 st1] log1] eqn:H1.
  destruct (handler_step e2 h1 st1) as [[h2 st2] log2] eqn:H2.
  intros [= _ <- _] Hst.
  eapply handler_step_allValid; [exact H2|].
  eapply handler_step_allValid; [exact H1 | exact Hst].
Qed.

Lemma deleteSweet_store (e : Env) (id : string) (st st' : Store) (r : Reply) :
  deleteSweet e id st = (r, st') ->
  forall oid s, st' !! oid = Some s -> st !! oid = Some s.
Proof.
  intros Hdel oid s.
  apply deleteSweet_cases in Hdel as [[_ ->] | (oid0 & s0 & _ & _ & _ & ->)];
    [auto|].
  intros H. apply lookup_delete_Some in H as [_ H]. exact H.
Qed.

(** A property of the store that the four writing handlers keep is kept by
    every request. *)
Lemma serve_preserves (P : Store -> Prop) (jwt_verify : string -> option string)
    (users : gmap ObjectId User) (rq : Request) (st : Store) :
  P st ->
  (forall body r st' log,
      route rq = POST_root body ->
      createSweet (env1 rq) (freshId rq) body st = (r, st', log) -> P st') ->
  (forall id body r st' log,
      route rq = PUT_id id body ->
      updateSweet (env1 rq) id body st = (r, st', log) -> P st') ->
  (forall id r st',
      route rq = DELETE_id id -> deleteSweet (env1 rq) id st = (r, st') -> P st') ->
  (forall id body r st' log,
      route rq = POST_id_purchase id body ->
      purchaseSweet (env1 rq) (env2 rq) id body st = (r, st', log) -> P st') ->
  P (serve jwt_verify users st rq).
Proof.
  intros HP Hcreate Hupdate Hdelete Hpurchase.
  unfold serve.
  destruct (sweetRoutes _ _ _ _ _ _ _ _ st) as [[r st'] log] eqn:Hrun. cbn.
  destruct (route rq) as [|id|body|id body|id|id body] eqn:Hroute; cbn in Hrun.
  - unfold getAllSweets in Hrun.
    destruct (Sweet_find_sorted (env1 rq) st); injection Hrun as <- <- <-; exact HP.
  - unfold getSweetById in Hrun.
    destruct (Sweet_findById (env1 rq) id st) as [[]| |d];
      injection Hrun as <- <- <-; exact HP.
  - apply adminOnly_cases in Hrun as [(_ & i & l & _ & Hh) | (_ & _ & _ & -> & _)];
      [|exact HP].
    destruct (createSweet (env1 rq) (freshId rq) body st) as [[r0 st0] log0] eqn:Hc.
    injection Hh as <- <- <-. exact (Hcreate _ _ _ _ eq_refl Hc).
  - apply adminOnly_cases in Hrun as [(_ & i & l & _ & Hh) | (_ & _ & _ & -> & _)];
      [|exact HP].
    destruct (updateSweet (env1 rq) id body st) as [[r0 st0] log0] eqn:Hc.
    injection Hh as <- <- <-. exact (Hupdate _ _ _ _ _ eq_refl Hc).
  - apply adminOnly_cases in Hrun as [(_ & i & l & _ & Hh) | (_ & _ & _ & -> & _)];
      [|exact HP].
    destruct (deleteSweet (env1 rq) id st) as [r0 st0] eqn:Hc.
    injection Hh as <- <- <-. exact (Hdelete _ _ _ eq_refl Hc).
  - destruct (purchaseSweet (env1 rq) (env2 rq) id body st) as [[r0 st0] log0] eqn:Hc.
    injection Hrun as <- <- <-. exact (Hpurchase _ _ _ _ _ eq_refl Hc).
Qed.

(** Whatever requests are served, by whomever and in whatever state of the
    database, the stored sweets stay valid for the schema: names of 2 to
    100 characters, a category of the list, a price above 0, a quantity
    that is not negative, descriptions of at most 500 characters. *)
Theorem requests_keep_sweets_valid (jwt_verify : string -> option string)
    (users : gmap ObjectId User) (rqs : list Request) (st : Store) :
  allValid st -> allValid (serveAll jwt_verify users rqs st).
Proof.
  unfold serveAll. revert st.
  induction rqs as [|rq rqs IH]; intros st Hst; [exact Hst|].
  cbn. apply IH. apply serve_preserves; [exact Hst | | | |].
  - intros body r st' log _ Hrun. exact (createSweet_allValid _ _ _ _ _ _ _ Hrun Hst).
  - intros id body r st' log _ Hrun. exact (updateSweet_allValid _ _ _ _ _ _ _ Hrun Hst).
  - intros id r st' _ Hrun oid s Hs. exact (Hst _ _ (deleteSweet_store _ _ _ _ _ Hrun _ _ Hs)).
  - intros id body r st' log _ Hrun. exact (purchaseSweet_allValid _ _ _ _ _ _ _ _ Hrun Hst).
Qed.

Lemma requests_keep_sweets_valid_witness :
  allValid (serveAll sampleVerify sampleUsers
              [mkRequest (Some "Bearer admin-token") (POST_root lollipop)
                         (online 0) (online 1) (online 2) 7%N;
               mkRequest None (POST_id_purchase sampleId (Object (Some 2%Q)))
                         (online 3) (online 4) (offline 5) 8%N]
              ∅).
Proof.
  apply (requests_keep_sweets_valid sampleVerify sampleUsers).
  intros oid s Hs. rewrite lookup_empty in Hs. discriminate Hs.
Defined.

(** As long as no request updates a sweet and the save of every purchase
    reaches the database, requests served one after the other keep inStock
    equal to (quantity > 0) on every item. *)
Theorem requests_keep_inStock_consistent (jwt_verify : string -> option string)
    (users : gmap ObjectId User) (rqs : list Request) (st : Store) :
  Forall (fun rq =>
            (forall id body, route rq <> PUT_id id body)
            /\ (forall id body, route rq = POST_id_purchase id body ->
                                up (env2 rq) = true)) rqs ->
  consistent st ->
  consistent (serveAll jwt_verify users rqs st).
Proof.
  unfold serveAll. revert st.
  induction rqs as [|rq rqs IH]; intros st Hall Hst; [exact Hst|].
  apply Forall_cons in Hall as [[Hnoput Hsave] Hall].
  cbn. apply IH; [exact Hall|].
  apply serve_preserves; [exact Hst | | | |].
  - intros body r st' log _ Hrun.
    pose proof Hrun as Hcases.
    apply createSweet_cases in Hcases as [[_ ->] | (Hok & _)]; [exact Hst|].
    destruct (createSweet_inStock _ _ _ _ _ _ _ Hrun Hok) as (s & _ & -> & Hin).
    intros oid s0. destruct (decide (freshId rq = oid)) as [<-|Hne].
    + rewrite lookup_insert_eq. intros [= <-]. exact Hin.
    + rewrite lookup_insert_ne by assumption. apply Hst.
  - intros id body r st' log Hroute _. destruct (Hnoput _ _ Hroute).
  - intros id r st' _ Hrun oid s Hs.
    exact (Hst _ _ (deleteSweet_store _ _ _ _ _ Hrun _ _ Hs)).
  - intros id body r st' log Hroute Hrun.
    apply purchaseSweet_outcomes in Hrun
      as [-> | (oid & s & s1 & Hs & -> & _ & [Hdown | Hin])]; [exact Hst | |].
    + rewrite (Hsave _ _ Hroute) in Hdown. discriminate Hdown.
    + intros oid0 s0. destruct (decide (oid = oid0)) as [<-|Hne].
      * rewrite lookup_insert_eq. intros [= <-]. exact Hin.
      * rewrite lookup_insert_ne by assumption. apply Hst.
Qed.

Lemma requests_keep_inStock_consistent_witness :
  consistent (serveAll sampleVerify sampleUsers
                [mkRequest (Some "Bearer admin-token") (POST_root lollipop)
                           (online 0) (online 1) (online 2) 7%N;
                 mkRequest None (POST_id_purchase sampleId (Object (Some 2%Q)))
                           (online 3) (online 4) (online 5) 8%N]
                ∅).
Proof.
  apply (requests_keep_inStock_consistent sampleVerify sampleUsers).
  - repeat constructor; cbn; try discriminate; reflexivity.
  - intros oid s Hs. rewrite lookup_empty in Hs. discriminate Hs.
Defined.

(** A single update is enough to break it: after the stock of a sold-out
    item is refilled through [updateSweet], the item has stock and inStock
    false. *)
Example update_breaks_consistency :
  let st : Store := {[ sampleOid := sample 0 false ]} in
  let st' := serveAll sampleVerify sampleUsers
               [mkRequest (Some "Bearer admin-token")
                          (PUT_id sampleId (mkInput None None None (Some 5%Q) None))
                          (online 0) (online 1) (online 2) 7%N] st in
  consistent st
  /\ (quantity <$> st' !! sampleOid) = Some 5
  /\ (inStock <$> st' !! sampleOid) = Some false.
Proof.
  cbn zeta. split.
  - intros oid s Hs.
    destruct (decide (sampleOid = oid)) as [<-|Hne].
    + rewrite lookup_singleton_eq in Hs. injection Hs as <-. reflexivity.
    + rewrite lookup_singleton_ne in Hs by assumption. discriminate Hs.
  - vm_compute. split; reflexivity.
Qed.

(** ** The statics and methods of the model *)

Lemma findInStock_spec (e : Env) (st : Store) :
  up e = true ->
  exists l,
    findInStock e st = inr l
    /\ forall oid s,
         (oid, s) ∈ l <-> st !! oid = Some s /\ inStock s = true /\ 0 < quantity s.
Proof.
  intros Hu. unfold findInStock. rewrite Hu.
  eexists. split; [reflexivity|].
  intros oid s. rewrite list_elem_of_filter, elem_of_map_to_list. cbn. tauto.
Qed.

(** After any interleaving of purchases that started from a store whose
    items with stock were flagged as in stock, [findInStock] returns exactly
    the items that have stock left. *)
Theorem findInStock_after_purchases (st : Store) (reqs : list (string * Body))
    (schedule : list Turn) (e : Env) :
  flagged st -> up e = true ->
  exists l,
    findInStock e (db (run schedule (arrive st reqs))) = inr l
    /\ forall oid s,
         (oid, s) ∈ l
         <-> db (run schedule (arrive st reqs)) !! oid = Some s /\ 0 < quantity s.
Proof.
  intros Hfl Hu.
  pose proof (run_flagged schedule (arrive st reqs) Hfl (arrive_current st reqs))
    as Hfl'.
  destruct (findInStock_spec e (db (run schedule (arrive st reqs))) Hu)
    as (l & Hfind & Hmem).
  exists l. split; [assumption|].
  intros oid s. rewrite Hmem. split.
  - tauto.
  - intros [Hs Hq]. split; [assumption|]. split; [|assumption].
    exact (Hfl' oid s Hs Hq).
Qed.

Lemma findInStock_after_purchases_witness :
  exists l,
    findInStock (online 9) (db (run interleaved (arrive (shelf 10) threeBuyers))) = inr l
    /\ forall oid s,
         (oid, s) ∈ l
         <-> db (run interleaved (arrive (shelf 10) threeBuyers)) !! oid = Some s
             /\ 0 < quantity s.
Proof.
  apply (findInStock_after_purchases (shelf 10) threeBuyers interleaved (online 9)).
  - intros oid s Hs _.
    destruct (decide (sampleOid = oid)) as [<-|Hne].
    + vm_compute in Hs. injection Hs as <-. reflexivity.
    + unfold shelf in Hs. rewrite lookup_singleton_ne in Hs by assumption.
      discriminate Hs.
  - reflexivity.
Defined.

(** An item that was out of stock and is refilled through [updateSweet]
    stays out of the result of [findInStock], whatever quantity the update
    gave it: the update leaves inStock false. *)
Theorem refilled_sweet_is_not_found_in_stock (e e' : Env) (id : string)
    (oid : ObjectId) (body : SweetInput) (st st' : Store) (s : Sweet)
    (r : Response) (log : list Event) (l : list (ObjectId * Sweet)) :
  st !! oid = Some s -> inStock s = false ->
  updateSweet e id body st = (r, st', log) ->
  findInStock e' st' = inr l ->
  forall s', (oid, s') ∉ l.
Proof.
  intros Hs Hin Hupd Hfind s' Hmem.
  pose proof (updateSweet_keeps_inStock _ _ _ _ _ _ _ _ _ Hupd Hs) as Hkeep.
  revert Hfind. unfold findInStock.
  destruct (up e'); [|discriminate].
  intros [= <-].
  apply list_elem_of_filter in Hmem as [[Htrue _] Hl].
  apply elem_of_map_to_list in Hl. cbn in Htrue.
  rewrite Hl in Hkeep. cbn in Hkeep. congruence.
Qed.

Lemma refilled_sweet_is_not_found_in_stock_witness :
  (sampleOid, set_updatedAt 1 (sample 5 false)) ∉ ([] : list (ObjectId * Sweet)).
Proof.
  refine (refilled_sweet_is_not_found_in_stock (online 1) (online 2) sampleId
           sampleOid (mkInput None None None (Some 5%Q) None)
           {[ sampleOid := sample 0 false ]}
           {[ sampleOid := set_updatedAt 1 (sample 5 false) ]}
           (sample 0 false)
           (mkResponse 200 true (Some "Sweet updated successfully")
              (Some (sampleOid, set_updatedAt 1 (sample 5 false))))
           [mkEvent (FindByIdAndUpdate sampleId (mkInput None None None (Some 5%Q) None))
              (Found (hydrate sampleOid (set_updatedAt 1 (sample 5 false))))]
            [] _ _ _ _ (set_updatedAt 1 (sample 5 false))).
  - reflexivity.
  - reflexivity.
  - vm_compute. reflexivity.
  - vm_compute. reflexivity.
Defined.

Lemma valid_category_is_listed (s : Sweet) :
  schemaValid s -> In (category s) categories.
Proof.
  intros (_ & Hc & _). revert Hc. unfold Validate.category.
  destruct (Nat.eqb (String.length (category s)) 0); [discriminate|].
  destruct (existsb (String.eqb (category s)) categories) eqn:E; [|discriminate].
  intros _. apply existsb_exists in E as (c & Hin & Heq).
  apply String.eqb_eq in Heq. congruence.
Qed.

(** [findByCategory] returns exactly the stored sweets whose category is the
    trimmed argument; on a store of valid sweets, an argument that is not
    one of the seven categories of the schema finds nothing. *)
Theorem findByCategory_finds_the_category (e : Env) (c : string) (st : Store) :
  up e = true ->
  exists l,
    findByCategory e c st = inr l
    /\ (forall oid s, (oid, s) ∈ l <-> st !! oid = Some s /\ category s = trim c)
    /\ (allValid st -> ~ In (trim c) categories -> l = []).
Proof.
  intros Hu. unfold findByCategory. rewrite Hu.
  eexists. split; [reflexivity|].
  assert (Hmem : forall oid s,
             (oid, s) ∈ filter (fun d : ObjectId * Sweet => category d.2 = trim c)
                               (map_to_list st)
             <-> st !! oid = Some s /\ category s = trim c).
  { intros oid s. rewrite list_elem_of_filter, elem_of_map_to_list. cbn. tauto. }
  split; [exact Hmem|].
  intros Hvalid Hnot.
  destruct (filter _ (map_to_list st)) as [|[oid s] l] eqn:El; [reflexivity|].
  exfalso.
  destruct (proj1 (Hmem oid s)) as [Hs Hc]; [left|].
  apply Hnot. rewrite <- Hc.
  exact (valid_category_is_listed s (Hvalid oid s Hs)).
Qed.

Lemma findByCategory_finds_the_category_witness :
  exists l,
    findByCategory (online 1) " Chocolate " (shelf 5) = inr l
    /\ (forall oid s, (oid, s) ∈ l <->
                      shelf 5 !! oid = Some s /\ category s = trim " Chocolate ")
    /\ (allValid (shelf 5) -> ~ In (trim " Chocolate ") categories -> l = []).
Proof.
  apply (findByCategory_finds_the_category (online 1) " Chocolate " (shelf 5)).
  reflexivity.
Defined.





(** [decreaseQuantity] is all or nothing: when it throws, the store is as
    it was.  It throws the insufficient-quantity error when the amount
    exceeds the quantity of the copy, and a validation error when the
    amount is covered but the double nearest to the difference is not an
    integer. *)
Theorem decreaseQuantity_throws_without_writing (e : Env) (amount : option Q)
    (l : Loaded) (st : Store) :
  (forall err st', decreaseQuantity e amount l st = (inl err, st') -> st' = st)
  /\ (Number.lt (Number.ofZ (quantity (paths (document l)))) (default 1%Q amount) = true ->
      decreaseQuantity e amount l st
      = (inl (PlainError "Insufficient quantity available"), st))
  /\ (Number.lt (Number.ofZ (quantity (paths (document l)))) (default 1%Q amount) = false ->
      Number.isInteger
        (Number.minus (Number.ofZ (quantity (paths (document l)))) (default 1%Q amount))
      = false ->
      decreaseQuantity e amount l st
      = (inl (FromMongoose (ValidationError ["Quantity must be a whole number"])), st)).
Proof.
  unfold decreaseQuantity. cbv zeta.
  destruct (Number.lt _ (default 1%Q amount)).
  { repeat split; try discriminate. intros err st' [= _ <-]. reflexivity. }
  destruct (Number.isInteger (Number.minus _ (default 1%Q amount))).
  2:{ repeat split; try discriminate. intros err st' [= _ <-]. reflexivity. }
  repeat split; try discriminate.
  intros err st'. unfold Loaded_save.
  destruct (_ && _); [intros [= _ <-]; reflexivity|].
  destruct (up e); [|intros [= _ <-]; reflexivity].
  destruct (st !! _); [|intros [= _ <-]; reflexivity].
  destruct (_ || _); discriminate.
Qed.

Lemma decreaseQuantity_throws_without_writing_witness :
  decreaseQuantity (online 1) None (load sampleOid (sample 0 false)) (shelf 3)
  = (inl (PlainError "Insufficient quantity available"), shelf 3)
  /\ decreaseQuantity (online 1) (Some (1 # 2)%Q) (load sampleOid (sample 3 true))
                      (shelf 3)
     = (inl (FromMongoose (ValidationError ["Quantity must be a whole number"])),
        shelf 3).
Proof.
  split.
  - destruct (decreaseQuantity_throws_without_writing (online 1) None
                (load sampleOid (sample 0 false)) (shelf 3)) as (_ & Hlow & _).
    apply Hlow. reflexivity.
  - destruct (decreaseQuantity_throws_without_writing (online 1) (Some (1 # 2)%Q)
                (load sampleOid (sample 3 true)) (shelf 3)) as (_ & _ & Hfrac).
    apply Hfrac; reflexivity.
Defined.

(** Half a unit taken from 3 leaves 2.5, which the whole-number validator
    rejects; half a unit taken from 2^52 + 1 leaves 2^52 + 0.5, which lies
    halfway between two doubles and becomes 2^52: the validator passes it
    and the item is saved with one unit less. *)
Example decreaseQuantity_half_unit :
  (Number.minus (Number.ofZ 3) (1 # 2) == 5 # 2)%Q
  /\ (Number.minus (Number.ofZ (2 ^ 52 + 1)) (1 # 2) == Number.ofZ (2 ^ 52))%Q
  /\ let '(r, st') :=
       decreaseQuantity (online 1) (Some (1 # 2)%Q)
                        (load sampleOid (sample (2 ^ 52 + 1) true))
                        (shelf (2 ^ 52 + 1)) in
     (exists l', r = inr l')
     /\ (quantity <$> st' !! sampleOid) = Some (2 ^ 52).
Proof.
  vm_compute. repeat split; try reflexivity. eexists; reflexivity.
Qed.



Example decreaseQuantity_loses_three :
  let st1 := (decreaseQuantity (online 1) (Some 3%Q)
                (load sampleOid (sample 10 true)) (shelf 10)).2 in
  let st2 := (decreaseQuantity (online 2) (Some 4%Q)
                (load sampleOid (sample 10 true)) st1).2 in
  (quantity <$> st1 !! sampleOid) = Some 7
  /\ (quantity <$> st2 !! sampleOid) = Some 6.
Proof. vm_compute. split; reflexivity. Qed.

(** [isAvailable] tells whether a purchase will go through: with the
    database reachable, a purchase of a positive integer amount of an item
    answers with success exactly when [isAvailable] holds for that amount. *)
Theorem isAvailable_predicts_purchase (e1 e2 : Env) (id : string) (oid : ObjectId)
    (st : Store) (s : Sweet) (a : Z) :
  castObjectId id = Some oid -> st !! oid = Some s -> 1 <= a ->
  up e1 = true -> up e2 = true ->
  success (purchaseSweet e1 e2 id (Object (Some (Number.ofZ a))) st).1.1
  = isAvailable s a.
Proof.
  intros Hc Hs Ha Hu1 Hu2.
  unfold purchaseSweet, isAvailable. asks_for a Ha.
  destruct (Z.leb_spec a (quantity s)) as [Hle|Hgt].
  - rewrite (findOneAndUpdate_hit e1 id oid a st s) by assumption.
    set (s1 := set_updatedAt (now e1) (set_quantity (Number.sub (quantity s) a) s)).
    destruct (save_after_decrement e2 oid s1 (<[oid := s1]> st) Hu2)
      as (item & Hsave & _); [apply lookup_insert_eq|].
    change (paths (hydrate oid s1)) with s1. rewrite Hsave. reflexivity.
  - rewrite (findOneAndUpdate_miss e1 id oid a st) by
        (try assumption; intros s0 Hs0; assert (s0 = s) as -> by congruence; lia).
    unfold Sweet_findById. rewrite Hc, Hu2, Hs. reflexivity.
Qed.

Lemma isAvailable_predicts_purchase_witness :
  success (purchaseSweet (online 1) (online 2) sampleId
                         (Object (Some (Number.ofZ 6))) (shelf 5)).1.1
  = isAvailable (sample 5 true) 6.
Proof.
  apply (isAvailable_predicts_purchase (online 1) (online 2) sampleId sampleOid
           (shelf 5) (sample 5 true) 6);
    first [reflexivity | lia].
Defined.

(** ** Round trips and races between handlers *)

(** A sweet that [createSweet] has created is what [getSweetById] returns
    for its id. *)
Theorem created_sweet_can_be_fetched (e e' : Env) (newId : ObjectId) (id : string)
    (body : SweetInput) (st st' : Store) (r : Response) (log : list Event) :
  createSweet e newId body st = (r, st', log) ->
  success r = true ->
  castObjectId id = Some newId -> up e' = true ->
  exists s,
    data r = Some (newId, s)
    /\ (getSweetById e' id st').1
       = (mkResponse 200 true None (Some (newId, s)), st').
Proof.
  intros Hrun Hok Hc Hu.
  destruct (createSweet_inStock _ _ _ _ _ _ _ Hrun Hok) as (s & Hdata & -> & _).
  exists s. split; [assumption|].
  unfold getSweetById, Sweet_findById. rewrite Hc, Hu, lookup_insert_eq. reflexivity.
Qed.

Lemma created_sweet_can_be_fetched_witness :
  exists s,
    Some (sampleOid, mkSweet "Lollipop" "Candy" 2 200 (Some "Sweet lollipop") true 1 1)
    = Some (sampleOid, s)
    /\ (getSweetById (online 2) sampleId
          {[ sampleOid := mkSweet "Lollipop" "Candy" 2 200 (Some "Sweet lollipop")
                                  true 1 1 ]}).1
       = (mkResponse 200 true None (Some (sampleOid, s)),
          {[ sampleOid := mkSweet "Lollipop" "Candy" 2 200 (Some "Sweet lollipop")
                                  true 1 1 ]}).
Proof.
  apply (created_sweet_can_be_fetched (online 1) (online 2) sampleOid sampleId
           lollipop ∅
           {[ sampleOid := mkSweet "Lollipop" "Candy" 2 200 (Some "Sweet lollipop")
                                   true 1 1 ]}
           (mkResponse 201 true (Some "Sweet created successfully")
              (Some (sampleOid, mkSweet "Lollipop" "Candy" 2 200
                                        (Some "Sweet lollipop") true 1 1)))
           [mkEvent (Create lollipop)
              (Found (hydrate sampleOid (mkSweet "Lollipop" "Candy" 2 200
                                                 (Some "Sweet lollipop") true 1 1)))]).
  - vm_compute. reflexivity.
  - reflexivity.
  - reflexivity.
  - reflexivity.
Defined.

(** An [updateSweet] that answers with success returns the stored item, and
    each field that the request supplies holds the value of the request,
    strings trimmed; updatedAt is the time of the update. *)
Theorem updateSweet_writes_supplied_fields (e : Env) (id : string)
    (body : SweetInput) (st st' : Store) (r : Response) (log : list Event) :
  updateSweet e id body st = (r, st', log) ->
  success r = true ->
  exists oid s',
    castObjectId id = Some oid
    /\ data r = Some (oid, s') /\ st' !! oid = Some s'
    /\ (forall v, in_name body = Some v -> name s' = trim v)
    /\ (forall v, in_category body = Some v -> category s' = trim v)
    /\ (forall v, in_price body = Some v -> price s' = v)
    /\ (forall v, in_quantity body = Some v -> quantity s' = Number.toZ v)
    /\ (forall v, in_description body = Some v -> description s' = Some (trim v))
    /\ updatedAt s' = now e.
Proof.
  intros Hrun Hok.
  apply updateSweet_cases in Hrun
    as [[Hf _] | (oid & s & Hc & Hs & _ & _ & -> & ->)]; [congruence|].
  exists oid, (applySet (castInput body) (now e) s).
  split; [assumption|]. split; [reflexivity|].
  split; [apply lookup_insert_eq|].
  destruct (applySet_written (castInput body) (now e) s)
    as (Hn & Hcat & Hp & Hq & Hd & Hup).
  split; [intros v Hv; apply Hn; unfold castInput; cbn; rewrite Hv; reflexivity|].
  split; [intros v Hv; apply Hcat; unfold castInput; cbn; rewrite Hv; reflexivity|].
  split; [exact Hp|]. split; [exact Hq|].
  split; [intros v Hv; apply Hd; unfold castInput; cbn; rewrite Hv; reflexivity|].
  exact Hup.
Qed.

Lemma updateSweet_writes_supplied_fields_witness :
  exists oid s',
    castObjectId sampleId = Some oid
    /\ Some (sampleOid, set_updatedAt 9 (set_name "Fudge" (sample 5 true)))
       = Some (oid, s')
    /\ <[sampleOid := set_updatedAt 9 (set_name "Fudge" (sample 5 true))]> (shelf 5)
         !! oid = Some s'
    /\ (forall v, in_name (mkInput (Some " Fudge ") None None None None) = Some v ->
                  name s' = trim v)
    /\ (forall v, in_category (mkInput (Some " Fudge ") None None None None) = Some v ->
                  category s' = trim v)
    /\ (forall v, in_price (mkInput (Some " Fudge ") None None None None) = Some v ->
                  price s' = v)
    /\ (forall v, in_quantity (mkInput (Some " Fudge ") None None None None) = Some v ->
                  quantity s' = Number.toZ v)
    /\ (forall v, in_description (mkInput (Some " Fudge ") None None None None) = Some v ->
                  description s' = Some (trim v))
    /\ updatedAt s' = now (online 9).
Proof.
  apply (updateSweet_writes_supplied_fields (online 9) sampleId
           (mkInput (Some " Fudge ") None None None None) (shelf 5)
           (<[sampleOid := set_updatedAt 9 (set_name "Fudge" (sample 5 true))]> (shelf 5))
           (mkResponse 200 true (Some "Sweet updated successfully")
              (Some (sampleOid, set_updatedAt 9 (set_name "Fudge" (sample 5 true)))))
           [mkEvent (FindByIdAndUpdate sampleId (mkInput (Some " Fudge ") None None None None))
              (Found (hydrate sampleOid (set_updatedAt 9 (set_name "Fudge" (sample 5 true)))))]).
  - vm_compute. reflexivity.
  - reflexivity.
Defined.

(** A purchase whose item is deleted between its decrement and its save
    answers 500: the save finds no document.  The item stays deleted. *)
Theorem purchase_of_deleted_sweet_fails (e1 e2 eD : Env) (id : string)
    (oid : ObjectId) (st : Store) (s : Sweet) (a : Z) :
  castObjectId id = Some oid -> st !! oid = Some s ->
  1 <= a -> a <= quantity s ->
  up e1 = true -> up e2 = true -> up eD = true ->
  let '(h1, st1, _) :=
    handler_step e1 (Requested id (Object (Some (Number.ofZ a)))) st in
  let '(rD, st2) := deleteSweet eD id st1 in
  let '(h2, st3, _) := handler_step e2 h1 st2 in
  ok rD = true
  /\ h2 = Responded (fail 500 "Error processing purchase")
  /\ st3 !! oid = None.
Proof.
  intros Hc Hs Ha Hle Hu1 Hu2 HuD.
  cbn [handler_step]. asks_for a Ha.
  rewrite (findOneAndUpdate_hit e1 id oid a st s) by assumption.
  set (s1 := set_updatedAt (now e1) (set_quantity (Number.sub (quantity s) a) s)).
  unfold deleteSweet, Sweet_findByIdAndDelete.
  rewrite Hc, HuD, lookup_insert_eq.
  cbn [handler_step].
  destruct (assign_inStock_spec (0 <? quantity (paths (hydrate oid s1))) (hydrate oid s1))
    as (_ & _ & Hid).
  set (d1 := assign_inStock (0 <? quantity (paths (hydrate oid s1))) (hydrate oid s1)) in *.
  destruct (preSave_spec d1) as (_ & _ & Hid').
  unfold Document_save. rewrite Hu2, Hid', Hid.
  cbn [_id hydrate]. rewrite lookup_delete_eq.
  cbn. split; [reflexivity|]. split; [reflexivity|]. apply lookup_delete_eq.
Qed.

Lemma purchase_of_deleted_sweet_fails_witness :
  let '(h1, st1, _) :=
    handler_step (online 1) (Requested sampleId (Object (Some (Number.ofZ 2))))
                 (shelf 5) in
  let '(rD, st2) := deleteSweet (online 2) sampleId st1 in
  let '(h2, st3, _) := handler_step (online 3) h1 st2 in
  ok rD = true
  /\ h2 = Responded (fail 500 "Error processing purchase")
  /\ st3 !! sampleOid = None.
Proof.
  apply (purchase_of_deleted_sweet_fails (online 1) (online 3) (online 2) sampleId
           sampleOid (shelf 5) (sample 5 true) 2);
    first [reflexivity | simpl; lia].
Defined.
